(** * Golf-scorecard OCR service: text cleaning, detection ranking and
      score extraction

    A shallow embedding of the two deployments of the EasyOCR server:

    - [Enhanced] follows [src/RoundsVersion2/easyocr_server/app.py]
      ([clean_golf_text], [extract_text_with_confidence], [/ocr]);
    - [Scores] follows [src/easyocr_server/app.py] ([/ocr] without text
      cleaning or ranking, and [/extract_scores]).

    Python values are modelled as follows.  A [str] is a list of Unicode
    code points.  A [float] is an exact rational ([Q]): the code only
    compares, subtracts and averages floats, so NaN and rounding are outside
    the model.  A dict with literal keys is an association list in the order
    the source writes its keys.  Exceptions are a sum type threaded through a
    small state-and-error monad whose state is the wall clock. *)

From Stdlib Require Import List ZArith NArith QArith String Ascii Bool Lia.
From Stdlib Require Import DecimalString Permutation Sorting.Sorted.
Import ListNotations.

Set Implicit Arguments.
Local Open Scope string_scope.
Local Open Scope list_scope.

(* ------------------------------------------------------------------ *)
(** ** The Python built-ins the sources call *)

Module Py.

Definition char := N.
Definition str := list char.

(** An ASCII literal of the source as a [str]. *)
Definition lit (s : string) : str := map N_of_ascii (list_ascii_of_string s).

Fixpoint str_eqb (a b : str) : bool :=
  match a, b with
  | [], [] => true
  | x :: a', y :: b' => (x =? y)%N && str_eqb a' b'
  | _, _ => false
  end.

(** Inclusive code-point ranges. *)
Fixpoint in_ranges (c : char) (rs : list (N * N)) : bool :=
  match rs with
  | [] => false
  | (lo, hi) :: rs' => ((lo <=? c)%N && (c <=? hi)%N) || in_ranges c rs'
  end.

(** [str.isspace] on one character (CPython's [Py_UNICODE_ISSPACE]). *)
Definition space_ranges : list (N * N) :=
  [ (0x9, 0xd); (0x1c, 0x20); (0x85, 0x85); (0xa0, 0xa0); (0x1680, 0x1680);
    (0x2000, 0x200a); (0x2028, 0x2029); (0x202f, 0x202f); (0x205f, 0x205f);
    (0x3000, 0x3000) ]%N.

Definition isspace (c : char) : bool := in_ranges c space_ranges.

(** Characters with the Unicode property Numeric_Type=Decimal, as
    (first code point, how many): every block is a run of whole decades
    starting at a zero digit, so the digit value is the offset modulo 10. *)
Definition decimal_blocks : list (N * N) :=
  [ (0x30, 10); (0x660, 10); (0x6f0, 10); (0x7c0, 10); (0x966, 10);
    (0x9e6, 10); (0xa66, 10); (0xae6, 10); (0xb66, 10); (0xbe6, 10);
    (0xc66, 10); (0xce6, 10); (0xd66, 10); (0xde6, 10); (0xe50, 10);
    (0xed0, 10); (0xf20, 10); (0x1040, 10); (0x1090, 10); (0x17e0, 10);
    (0x1810, 10); (0x1946, 10); (0x19d0, 10); (0x1a80, 10); (0x1a90, 10);
    (0x1b50, 10); (0x1bb0, 10); (0x1c40, 10); (0x1c50, 10); (0xa620, 10);
    (0xa8d0, 10); (0xa900, 10); (0xa9d0, 10); (0xa9f0, 10); (0xaa50, 10);
    (0xabf0, 10); (0xff10, 10); (0x104a0, 10); (0x10d30, 10); (0x11066, 10);
    (0x110f0, 10); (0x11136, 10); (0x111d0, 10); (0x112f0, 10); (0x11450, 10);
    (0x114d0, 10); (0x11650, 10); (0x116c0, 10); (0x11730, 10); (0x118e0, 10);
    (0x11950, 10); (0x11c50, 10); (0x11d50, 10); (0x11da0, 10); (0x16a60, 10);
    (0x16ac0, 10); (0x16b50, 10); (0x1d7ce, 50); (0x1e140, 10); (0x1e2f0, 10);
    (0x1e950, 10); (0x1fbf0, 10) ]%N.

(** Characters with Numeric_Type=Digit that are not decimal (superscripts,
    subscripts, circled digits and the like). *)
Definition digit_only_ranges : list (N * N) :=
  [ (0xb2, 0xb3); (0xb9, 0xb9); (0x1369, 0x1371); (0x19da, 0x19da);
    (0x2070, 0x2070); (0x2074, 0x2079); (0x2080, 0x2089); (0x2460, 0x2468);
    (0x2474, 0x247c); (0x2488, 0x2490); (0x24ea, 0x24ea); (0x24f5, 0x24fd);
    (0x24ff, 0x24ff); (0x2776, 0x277e); (0x2780, 0x2788); (0x278a, 0x2792);
    (0x10a40, 0x10a43); (0x10e60, 0x10e68); (0x11052, 0x1105a);
    (0x1f100, 0x1f10a) ]%N.

Fixpoint decimal_in (c : char) (bs : list (N * N)) : option Z :=
  match bs with
  | [] => None
  | (lo, n) :: bs' =>
      if ((lo <=? c) && (c <? lo + n))%N
      then Some (Z.of_N ((c - lo) mod 10))
      else decimal_in c bs'
  end.

(** The decimal value of a character, when it has one. *)
Definition decimal_value (c : char) : option Z := decimal_in c decimal_blocks.

Definition isdecimal_char (c : char) : bool :=
  match decimal_value c with Some _ => true | None => false end.

Definition isdigit_char (c : char) : bool :=
  isdecimal_char c || in_ranges c digit_only_ranges.

(** [s.isdigit()]: at least one character, and all of them digits. *)
Definition isdigit (s : str) : bool :=
  match s with
  | [] => false
  | _ => forallb isdigit_char s
  end.

(** [s.split()] with no argument: the maximal runs of non-whitespace.
    [w] is the word being scanned. *)
Definition flush (w : str) : list str :=
  match w with [] => [] | _ => [w] end.

Fixpoint split_from (w : str) (s : str) : list str :=
  match s with
  | [] => flush w
  | c :: s' =>
      if isspace c then flush w ++ split_from [] s'
      else split_from (w ++ [c]) s'
  end.

Definition split (s : str) : list str := split_from [] s.

(** [sep.join(words)]. *)
Fixpoint join (sep : str) (ws : list str) : str :=
  match ws with
  | [] => []
  | [w] => w
  | w :: ws' => w ++ sep ++ join sep ws'
  end.

(** [s.strip()] with no argument. *)
Fixpoint lstrip (s : str) : str :=
  match s with
  | [] => []
  | c :: s' => if isspace c then lstrip s' else s
  end.

Definition rstrip (s : str) : str := rev (lstrip (rev s)).
Definition strip (s : str) : str := rstrip (lstrip s).

(** [s.replace(old, new)] for one-character [old] and [new]. *)
Definition replace (old new : char) (s : str) : str :=
  map (fun c => if (c =? old)%N then new else c) s.

(** Exceptions.  [ValueError_int s] is what [int(s)] raises on a string it
    cannot read; [TypeError], [KeyError] and [AttributeError] are raised by
    an operation on a value of the wrong type, a missing dict key and a
    missing attribute; [Raised m] comes from a collaborator (base64, PIL,
    OpenCV, EasyOCR). *)
Inductive exn : Type :=
| ValueError_int (literal : str)
| TypeError (what : string)
| KeyError (key : string)
| AttributeError (what : string)
| Raised (msg : str).

Inductive result (A : Type) : Type :=
| Ok (a : A)
| Err (e : exn).
Arguments Ok {A} a.
Arguments Err {A} e.

Fixpoint digits_value (acc : Z) (s : str) : option Z :=
  match s with
  | [] => Some acc
  | c :: s' =>
      match decimal_value c with
      | Some d => digits_value (10 * acc + d) s'
      | None => None
      end
  end.

(** [int(s)] for the strings the server passes to it, which are non-empty
    strings of digit characters: the base-10 value when every character is a
    decimal digit, [ValueError] otherwise.  (Signs, underscores and
    surrounding blanks, which [int] also reads, never reach it here; the
    interpreter's limit on the number of digits is not modelled.) *)
Definition int (s : str) : result Z :=
  match s with
  | [] => Err (ValueError_int s)
  | _ => match digits_value 0 s with
         | Some z => Ok z
         | None => Err (ValueError_int s)
         end
  end.

(** [p in s] for two strings. *)
Fixpoint startswith (p s : str) : bool :=
  match p, s with
  | [], _ => true
  | a :: p', b :: s' => (a =? b)%N && startswith p' s'
  | _ :: _, [] => false
  end.

Fixpoint contains (p s : str) : bool :=
  startswith p s ||
  match s with
  | [] => false
  | _ :: s' => contains p s'
  end.

(** Renders a natural number in base 10, as an f-string does. *)
Definition str_of_nat (n : nat) : str :=
  lit (NilEmpty.string_of_uint (Nat.to_uint n)).

End Py.

(** [list.sort(key=..., reverse=...)].  The sort is stable and compares keys
    with [<] only; on keys that [<] orders totally its result is the one
    stable sorted arrangement, computed here by insertion.  With
    [reverse=True] the interpreter reverses the list, sorts it, and reverses
    it again, which keeps equal keys in their original order. *)
Module PySort.
Section Sort.
Variables A K : Type.
Variable lt : K -> K -> bool.
Variable key : A -> K.

Fixpoint insert (a : A) (l : list A) : list A :=
  match l with
  | [] => [a]
  | b :: l' => if lt (key b) (key a) then b :: insert a l' else a :: l
  end.

Definition ascending (l : list A) : list A := fold_right insert [] l.

Definition sort (reverse : bool) (l : list A) : list A :=
  if reverse then rev (ascending (rev l)) else ascending l.
End Sort.
End PySort.

(** Floats. *)
Definition Qltb (a b : Q) : bool := negb (Qle_bool b a).

(** [<] on tuples of two floats: the first components that differ decide. *)
Definition pair_ltb (a b : Q * Q) : bool :=
  if Qeq_bool (fst a) (fst b) then Qltb (snd a) (snd b)
  else Qltb (fst a) (fst b).

(* ------------------------------------------------------------------ *)
(** ** Data model *)

(** One element of EasyOCR's [readtext] result: the four corner points of
    the region (clockwise from top-left), the text and the confidence. *)
Record RawDetection : Type := {
  region : (Q * Q) * (Q * Q) * (Q * Q) * (Q * Q);
  raw_text : Py.str;
  raw_confidence : Q
}.

Definition top_left (r : RawDetection) : Q * Q :=
  let '(p0, _, _, _) := region r in p0.
Definition bottom_right (r : RawDetection) : Q * Q :=
  let '(_, _, p2, _) := region r in p2.

Record BBox : Type := {
  bbox_x : Q;
  bbox_y : Q;
  bbox_width : Q;
  bbox_height : Q
}.

Record Detection : Type := {
  text : Py.str;
  confidence : Q;
  bbox : BBox
}.

Record ScoreCandidate : Type := {
  score : Z;
  score_confidence : Q;
  score_bbox : BBox
}.

(** JSON values, and the values the servers store in their response dicts:
    [VInts] is a list of scores and [VDetections] the list of detection
    dicts of a response; [VList] and [VDict] are the arrays and objects of a
    request. *)
Unset Elimination Schemes.
Inductive value : Type :=
| VNone
| VBool (b : bool)
| VInt (z : Z)
| VFloat (q : Q)
| VStr (s : Py.str)
| VInts (l : list Z)
| VDetections (l : list Detection)
| VList (l : list value)
| VDict (d : list (string * value)).
Set Elimination Schemes.

Definition dict := list (string * value).

Fixpoint get (d : dict) (k : string) : option value :=
  match d with
  | [] => None
  | (k', v) :: d' => if String.eqb k k' then Some v else get d' k
  end.

Definition has_key (d : dict) (k : string) : bool :=
  match get d k with Some _ => true | None => false end.

(** Python truthiness. *)
Definition truthy (v : value) : bool :=
  match v with
  | VNone => false
  | VBool b => b
  | VInt z => negb (z =? 0)%Z
  | VFloat q => negb (Qeq_bool q 0)
  | VStr s => match s with [] => false | _ => true end
  | VInts l => match l with [] => false | _ => true end
  | VDetections l => match l with [] => false | _ => true end
  | VList l => match l with [] => false | _ => true end
  | VDict d => match d with [] => false | _ => true end
  end.

(** What a Flask view returns: a response object made by [jsonify], a
    [(response, status)] tuple, or a bare dict. *)
Inductive view_result : Type :=
| Response (body : dict)
| WithStatus (body : dict) (status : Z)
| BareDict (body : dict).

(** What Flask sends for it: a response without an explicit status, and a
    dict (which Flask passes to [jsonify]), go out with status 200. *)
Definition http_status (r : view_result) : Z :=
  match r with
  | Response _ => 200
  | WithStatus _ s => s
  | BareDict _ => 200
  end.

Definition http_body (r : view_result) : dict :=
  match r with
  | Response b => b
  | WithStatus b _ => b
  | BareDict b => b
  end.

(* ------------------------------------------------------------------ *)
(** ** Effects: the wall clock and exceptions *)

(** The state is the number of times [time.time()] has been read. *)
Definition clock := nat.

Definition M (A : Type) : Type := clock -> Py.result A * clock.

Definition ret {A} (a : A) : M A := fun c => (Py.Ok a, c).

Definition bind {A B} (m : M A) (f : A -> M B) : M B :=
  fun c => match m c with
           | (Py.Ok a, c') => f a c'
           | (Py.Err e, c') => (Py.Err e, c')
           end.

Definition lift {A} (r : Py.result A) : M A := fun c => (r, c).

(** [try: body except Exception as e: handler]. *)
Definition try_except {A} (body : M A) (handler : Py.exn -> M A) : M A :=
  fun c => match body c with
           | (Py.Ok a, c') => (Py.Ok a, c')
           | (Py.Err e, c') => handler e c'
           end.

Declare Scope py_scope.
Delimit Scope py_scope with py.
Notation "x <- m ;; k" := (bind m (fun x => k))
  (at level 61, m at next level, right associativity) : py_scope.

(** The same for pure code that can raise. *)
Definition rbind {A B} (r : Py.result A) (f : A -> Py.result B)
  : Py.result B :=
  match r with
  | Py.Ok a => f a
  | Py.Err e => Py.Err e
  end.

Notation "x <~ r ;; k" := (rbind r (fun x => k))
  (at level 61, r at next level, right associativity) : py_scope.

(** The collaborators of a server process: the clock, how an exception
    prints ([str(e)]), image loading (base64 decoding, [Image.open] and the
    colour conversion), the OpenCV filters and the EasyOCR reader. *)
Record Env (image : Type) : Type := {
  wall : nat -> Q;
  str_exn : Py.exn -> Py.str;
  load_image : value -> Py.result image;
  is_colour : image -> bool;
  cvtColor_gray : image -> Py.result image;
  clahe_apply : image -> Py.result image;
  bilateralFilter : image -> Py.result image;
  filter2D : image -> Py.result image;
  normalize : image -> Py.result image;
  readtext : image -> Py.result (list RawDetection)
}.

Section Clock.
Variable image : Type.
Variable env : Env image.

(** [time.time()]. *)
Definition time_time : M Q := fun c => (Py.Ok (wall env c), S c).
End Clock.

Local Open Scope py_scope.

(** [request.json] as Flask hands it to the view: the parsed JSON body
    ([VNone] for the JSON value null). *)
Definition request_json := value.

(** [v == key] for a string [key]. *)
Definition is_str (k : string) (v : value) : bool :=
  match v with
  | VStr s => Py.str_eqb s (Py.lit k)
  | _ => false
  end.

(** [not request.json or key not in request.json]. *)
Definition lacks (request : request_json) (k : string) : Py.result bool :=
  if negb (truthy request) then Py.Ok true
  else
    match request with
    | VDict d => Py.Ok (negb (has_key d k))
    | VStr s => Py.Ok (negb (Py.contains (Py.lit k) s))
    | VList l => Py.Ok (negb (existsb (is_str k) l))
    | VInts _ | VDetections _ => Py.Ok true
    | VNone | VBool _ | VInt _ | VFloat _ =>
        Py.Err (Py.TypeError "argument is not iterable")
    end.

(** [obj[key]] for a string [key]. *)
Definition item (obj : value) (k : string) : Py.result value :=
  match obj with
  | VDict d => match get d k with
               | Some v => Py.Ok v
               | None => Py.Err (Py.KeyError k)
               end
  | VStr _ => Py.Err (Py.TypeError "string indices must be integers")
  | VList _ | VInts _ | VDetections _ =>
      Py.Err (Py.TypeError "list indices must be integers or slices, not str")
  | VNone | VBool _ | VInt _ | VFloat _ =>
      Py.Err (Py.TypeError "object is not subscriptable")
  end.

(** The detection record both servers build from one EasyOCR result;
    [clean] is what is done to the text. *)
Definition detection_of (clean : Py.str -> Py.str) (r : RawDetection)
  : Detection :=
  {| text := clean (raw_text r);
     confidence := raw_confidence r;
     bbox := {| bbox_x := fst (top_left r);
                bbox_y := snd (top_left r);
                bbox_width := fst (bottom_right r) - fst (top_left r);
                bbox_height := snd (bottom_right r) - snd (top_left r) |} |}.

(* ------------------------------------------------------------------ *)
(** ** The enhanced server: [src/RoundsVersion2/easyocr_server/app.py] *)

Module Enhanced.

Definition ch (a : ascii) : Py.char := N_of_ascii a.

(** The [corrections] dict; keys and values are one-character strings. *)
Definition corrections : list (Py.char * Py.char) :=
  [ (ch "O", ch "0"); (ch "o", ch "0"); (ch "l", ch "1"); (ch "I", ch "1");
    (ch "S", ch "5"); (ch "G", ch "6"); (ch "B", ch "8"); (ch "|", ch "1") ].

Fixpoint lookup (c : Py.char) (t : list (Py.char * Py.char))
  : option Py.char :=
  match t with
  | [] => None
  | (k, v) :: t' => if (c =? k)%N then Some v else lookup c t'
  end.

(** [c in corrections] for a character [c]. *)
Definition in_corrections (c : Py.char) : bool :=
  match lookup c corrections with Some _ => true | None => false end.

(** [word in corrections]: only a one-character word can be a key. *)
Definition word_in_corrections (word : Py.str) : bool :=
  match word with
  | [c] => in_corrections c
  | _ => false
  end.

(** [corrections[word]], where [word in corrections]. *)
Definition corrections_at (word : Py.str) : Py.str :=
  match word with
  | [c] => match lookup c corrections with Some d => [d] | None => word end
  | _ => word
  end.

(** The body of the loop over [words]. *)
Definition correct_word (word : Py.str) : Py.str :=
  if (List.length word =? 1)%nat && word_in_corrections word then
    corrections_at word
  else if (List.length word <=? 3)%nat && existsb in_corrections word then
    fold_left (fun corrected_word '(old_char, new_char) =>
                 Py.replace old_char new_char corrected_word)
              corrections word
  else word.

Definition clean_golf_text (text : Py.str) : Py.str :=
  match text with
  | [] => []
  | _ =>
      let cleaned := Py.join (Py.lit " ") (Py.split text) in
      let words := Py.split cleaned in
      let corrected_words := map correct_word words in
      Py.join (Py.lit " ") corrected_words
  end.

Definition extract_text_with_confidence (results : list RawDetection)
  : list Detection :=
  let detections := map (detection_of clean_golf_text) results in
  PySort.sort Qltb confidence true detections.

Section Server.
Variable image : Type.
Variable env : Env image.

Definition preprocess_image (img : image) : Py.result image :=
  gray <~ (if is_colour env img then cvtColor_gray env img else Py.Ok img) ;;
  enhanced <~ clahe_apply env gray ;;
  denoised <~ bilateralFilter env enhanced ;;
  sharpened <~ filter2D env denoised ;;
  normalize env sharpened.

(** [POST /ocr]. *)
Definition perform_ocr (request : request_json) : M view_result :=
  start_time <- time_time env ;;
  try_except
    (missing <- lift (lacks request "image") ;;
     if missing then
       now <- time_time env ;;
       ret (WithStatus
              [ ("success", VBool false);
                ("error", VStr (Py.lit "Missing image data in request"));
                ("processing_time", VFloat (now - start_time)) ]
              400)
     else
       decoded <-
         try_except
           (image_data <- lift (item request "image") ;;
            cv_image <- lift (load_image env image_data) ;;
            ret (inl cv_image))
           (fun e =>
              now <- time_time env ;;
              ret (inr (WithStatus
                          [ ("success", VBool false);
                            ("error", VStr (Py.lit "Invalid image data: "
                                            ++ str_exn env e));
                            ("processing_time", VFloat (now - start_time))
                          ]
                          400))) ;;
       match decoded with
       | inr response => ret response
       | inl cv_image =>
           processed_image <- lift (preprocess_image cv_image) ;;
           results <- lift (readtext env processed_image) ;;
           let detections := extract_text_with_confidence results in
           now <- time_time env ;;
           let processing_time := now - start_time in
           ret (Response
                  [ ("success", VBool true);
                    ("detections", VDetections detections);
                    ("processing_time", VFloat processing_time);
                    ("message",
                     VStr (Py.lit "Successfully processed "
                           ++ Py.str_of_nat (List.length detections)
                           ++ Py.lit " text detections")) ])
       end)
    (fun e =>
       now <- time_time env ;;
       let processing_time := now - start_time in
       ret (WithStatus
              [ ("success", VBool false);
                ("error", VStr (Py.lit "OCR processing failed: "
                                ++ str_exn env e));
                ("processing_time", VFloat processing_time) ]
              500)).
End Server.

End Enhanced.

(* ------------------------------------------------------------------ *)
(** ** The score server: [src/easyocr_server/app.py] *)

Module Scores.

Record ScoreReport : Type := {
  scores : list Z;
  total : Z;
  avg_confidence : Q;
  holes_found : Z;
  expected_holes : value
}.

(** The test and the [append] in the loop over [detections]. *)
Definition candidate (detection : Detection)
  : Py.result (option ScoreCandidate) :=
  let text := Py.strip (text detection) in
  let confidence := confidence detection in
  if Py.isdigit text then
    n <~ Py.int text ;;
    if ((1 <=? n)%Z && (n <=? 12)%Z) && Qltb 0.5 confidence then
      score <~ Py.int text ;;
      Py.Ok (Some {| score := score;
                     score_confidence := confidence;
                     score_bbox := bbox detection |})
    else Py.Ok None
  else Py.Ok None.

(** The loop over [detections], appending to [potential_scores]. *)
Fixpoint collect (potential_scores : list ScoreCandidate)
         (detections : list Detection) : Py.result (list ScoreCandidate) :=
  match detections with
  | [] => Py.Ok potential_scores
  | detection :: rest =>
      c <~ candidate detection ;;
      match c with
      | Some s => collect (potential_scores ++ [s]) rest
      | None => collect potential_scores rest
      end
  end.

(** The sort key [(x['bbox']['y'], x['bbox']['x'])]. *)
Definition position (s : ScoreCandidate) : Q * Q :=
  (bbox_y (score_bbox s), bbox_x (score_bbox s)).

(** [l[:stop]]. *)
Definition slice_to {A} (l : list A) (stop : value) : Py.result (list A) :=
  let upto (z : Z) :=
    if (0 <=? z)%Z then firstn (Z.to_nat z) l
    else firstn (List.length l - Z.to_nat (- z)) l in
  match stop with
  | VNone => Py.Ok l
  | VInt z => Py.Ok (upto z)
  | VBool b => Py.Ok (upto (if b then 1 else 0)%Z)
  | _ => Py.Err (Py.TypeError
           "slice indices must be integers or None or have an __index__ method")
  end.

(** [sum(scores)]. *)
Definition sum (l : list Z) : Z := fold_left Z.add l 0%Z.

(** [np.mean] of a non-empty list of floats. *)
Definition mean (l : list Q) : Q :=
  fold_left Qplus l 0 / inject_Z (Z.of_nat (List.length l)).

(** Lines 105-136: from the detections and [expected_holes] to the fields
    of the response. *)
Definition extract (detections : list Detection) (expected_holes : value)
  : Py.result ScoreReport :=
  potential_scores <~ collect [] detections ;;
  let potential_scores := PySort.sort pair_ltb position false potential_scores in
  taken <~ slice_to potential_scores expected_holes ;;
  let scores := map score taken in
  let avg_confidence :=
    match scores with
    | [] => 0.0
    | _ => mean (map score_confidence taken)
    end in
  Py.Ok {| scores := scores;
           total := sum scores;
           avg_confidence := avg_confidence;
           holes_found := Z.of_nat (List.length scores);
           expected_holes := expected_holes |}.

(** Iterating over [ocr_data['detections']], which is the list that [/ocr]
    put there; no value of another shape reaches the loop. *)
Definition iterate (v : value) : Py.result (list Detection) :=
  match v with
  | VDetections l => Py.Ok l
  | _ => Py.Err (Py.TypeError "detections")
  end.

Section Server.
Variable image : Type.
Variable env : Env image.

(** [POST /ocr]. *)
Definition perform_ocr (request : request_json) : M view_result :=
  start_time <- time_time env ;;
  try_except
    (missing <- lift (lacks request "image") ;;
     if missing then
       now <- time_time env ;;
       ret (WithStatus
              [ ("success", VBool false);
                ("error", VStr (Py.lit "Missing image data in request"));
                ("processing_time", VFloat (now - start_time)) ]
              400)
     else
       image_data <- lift (item request "image") ;;
       cv_image <- lift (load_image env image_data) ;;
       results <- lift (readtext env cv_image) ;;
       let detections := map (detection_of (fun text => text)) results in
       now <- time_time env ;;
       let processing_time := now - start_time in
       ret (Response
              [ ("success", VBool true);
                ("detections", VDetections detections);
                ("processing_time", VFloat processing_time);
                ("message",
                 VStr (Py.lit "Found "
                       ++ Py.str_of_nat (List.length detections)
                       ++ Py.lit " text elements")) ]))
    (fun e =>
       now <- time_time env ;;
       ret (WithStatus
              [ ("success", VBool false);
                ("error", VStr (Py.lit "OCR processing failed: "
                                ++ str_exn env e));
                ("processing_time", VFloat (now - start_time)) ]
              500)).

(** [ocr_response.json], or [get_json()] of the response in a tuple. *)
Definition json_of (ocr_response : view_result) : Py.result dict :=
  match ocr_response with
  | Response body => Py.Ok body
  | WithStatus body _ => Py.Ok body
  | BareDict _ =>
      Py.Err (Py.AttributeError "'dict' object has no attribute 'get_json'")
  end.

(** [request.json.get('expected_holes', 18)]. *)
Definition get_expected_holes (request : request_json) : Py.result value :=
  match request with
  | VDict d => match get d "expected_holes" with
               | Some v => Py.Ok v
               | None => Py.Ok (VInt 18)
               end
  | _ => Py.Err (Py.AttributeError "object has no attribute 'get'")
  end.

(** [not ocr_data.get('success')]. *)
Definition failed (ocr_data : dict) : bool :=
  match get ocr_data "success" with
  | Some v => negb (truthy v)
  | None => true
  end.

(** [POST /extract_scores]. *)
Definition extract_scores (request : request_json) : M view_result :=
  start_time <- time_time env ;;
  try_except
    (ocr_response <- perform_ocr request ;;
     ocr_data <- lift (json_of ocr_response) ;;
     if failed ocr_data then ret (BareDict ocr_data)
     else
       found <- lift (item (VDict ocr_data) "detections") ;;
       expected_holes <- lift (get_expected_holes request) ;;
       detections <- lift (iterate found) ;;
       report <- lift (extract detections expected_holes) ;;
       now <- time_time env ;;
       let processing_time := now - start_time in
       ret (Response
              [ ("success", VBool true);
                ("scores", VInts (scores report));
                ("total", VInt (total report));
                ("confidence", VFloat (avg_confidence report));
                ("holes_found", VInt (holes_found report));
                ("expected_holes", Scores.expected_holes report);
                ("processing_time", VFloat processing_time) ]))
    (fun e =>
       now <- time_time env ;;
       ret (WithStatus
              [ ("success", VBool false);
                ("error", VStr (Py.lit "Score extraction failed: "
                                ++ str_exn env e));
                ("processing_time", VFloat (now - start_time)) ]
              500)).
End Server.

End Scores.

(* ------------------------------------------------------------------ *)
(** ** Vocabulary of the specification *)

(** A word: at least one character, none of them whitespace. *)
Definition is_word (w : Py.str) : Prop :=
  w <> [] /\ forallb (fun c => negb (Py.isspace c)) w = true.

(** The substitution table read as a function on characters. *)
Definition subst (c : Py.char) : Py.char :=
  match Enhanced.lookup c Enhanced.corrections with
  | Some d => d
  | None => c
  end.

(** The detections whose confidence is [c]. *)
Definition has_confidence (c : Q) (d : Detection) : bool :=
  Qeq_bool (confidence d) c.

(** Reading order: the higher box first, and of two boxes at one height the
    one further left. *)
Definition reading_le (a b : ScoreCandidate) : Prop :=
  bbox_y (score_bbox a) < bbox_y (score_bbox b) \/
  (bbox_y (score_bbox a) == bbox_y (score_bbox b) /\
   bbox_x (score_bbox a) <= bbox_x (score_bbox b)).

(** The candidates whose box starts at height [ky] and abscissa [kx]. *)
Definition at_position (ky kx : Q) (s : ScoreCandidate) : bool :=
  Qeq_bool (bbox_y (score_bbox s)) ky && Qeq_bool (bbox_x (score_bbox s)) kx.

(** The filter of the score extractor in the specification's words: the
    trimmed text consists entirely of decimal digits, parses to an integer
    in [1,12], and the confidence is above 0.5. *)
Definition all_decimal_digits (s : Py.str) : bool :=
  forallb Py.isdecimal_char s.

Definition parses_within (lo hi : Z) (s : Py.str) : bool :=
  match Py.int s with
  | Py.Ok n => (lo <=? n)%Z && (n <=? hi)%Z
  | Py.Err _ => false
  end.

Definition is_score (d : Detection) : bool :=
  let trimmed := Py.strip (text d) in
  all_decimal_digits trimmed && parses_within 1 12 trimmed
  && Qltb 0.5 (confidence d).

(** The candidate made of a detection that passes the filter. *)
Definition as_candidate (d : Detection) : ScoreCandidate :=
  {| score := match Py.int (Py.strip (text d)) with
              | Py.Ok n => n
              | Py.Err _ => 0
              end;
     score_confidence := confidence d;
     score_bbox := bbox d |}.

(** Sums, written as the sum of the head and the sum of the rest. *)
Definition Zsum (l : list Z) : Z := fold_right Z.add 0%Z l.
Definition Qsum (l : list Q) : Q := fold_right Qplus 0 l.

(** The detections of the end-to-end example. *)
Definition example_detections : list Detection :=
  [ {| text := Py.lit "4"; confidence := 0.9;
       bbox := {| bbox_x := 10; bbox_y := 10;
                  bbox_width := 5; bbox_height := 5 |} |};
    {| text := Py.lit "S"; confidence := 0.7;
       bbox := {| bbox_x := 50; bbox_y := 10;
                  bbox_width := 5; bbox_height := 5 |} |};
    {| text := Py.lit "par"; confidence := 0.99;
       bbox := {| bbox_x := 0; bbox_y := 0;
                  bbox_width := 20; bbox_height := 10 |} |} ].

(** The same detections with their text cleaned. *)
Definition cleaned (ds : list Detection) : list Detection :=
  map (fun d => {| text := Enhanced.clean_golf_text (text d);
                   confidence := confidence d;
                   bbox := bbox d |}) ds.

(** A detection whose text is the superscript two. *)
Definition superscript_two : Detection :=
  {| text := [0xb2%N]; confidence := 0.9;
     bbox := {| bbox_x := 0; bbox_y := 0;
                bbox_width := 5; bbox_height := 5 |} |}.

(** A process whose collaborators all succeed and whose reader finds
    [results] in every image; the clock advances by one at each reading. *)
Definition fixed_env (results : list RawDetection) : Env unit :=
  {| wall := fun n => inject_Z (Z.of_nat n);
     str_exn := fun _ => Py.lit "error";
     load_image := fun _ => Py.Ok tt;
     is_colour := fun _ => true;
     cvtColor_gray := fun i => Py.Ok i;
     clahe_apply := fun i => Py.Ok i;
     bilateralFilter := fun i => Py.Ok i;
     filter2D := fun i => Py.Ok i;
     normalize := fun i => Py.Ok i;
     readtext := fun _ => Py.Ok results |}.

(** The bodies on which the check of [/ocr] finds no image: null, false and
    zero (which are falsy), an object with no ["image"] key, an array with
    no element ["image"], and a string that does not contain ["image"].  A
    body that is [true] or a non-zero number is not among them: the
    membership test cannot be made on it. *)
Definition without_image (request : request_json) : Prop :=
  match request with
  | VNone => True
  | VBool b => b = false
  | VInt z => z = 0%Z
  | VFloat q => q == 0
  | VStr s => Py.contains (Py.lit "image") s = false
  | VList l => existsb (is_str "image") l = false
  | VDict d => get d "image" = None
  | VInts _ | VDetections _ => True
  end.

(** The answer of both servers to a body on which the membership test
    raises: status 500 from the handler of [except]. *)
Definition not_iterable_answer (image : Type) (env : Env image)
           (request : request_json) (c : clock) : Prop :=
  Enhanced.perform_ocr env request c
  = (Py.Ok (WithStatus
              [ ("success", VBool false);
                ("error", VStr (Py.lit "OCR processing failed: "
                                ++ str_exn env
                                     (Py.TypeError "argument is not iterable")));
                ("processing_time", VFloat (wall env (S c) - wall env c)) ]
              500),
     S (S c)) /\
  Scores.perform_ocr env request c
  = (Py.Ok (WithStatus
              [ ("success", VBool false);
                ("error", VStr (Py.lit "OCR processing failed: "
                                ++ str_exn env
                                     (Py.TypeError "argument is not iterable")));
                ("processing_time", VFloat (wall env (S c) - wall env c)) ]
              500),
     S (S c)).

(** A scorecard row read out of order: five scores, two of them detected at
    the same position, and a label. *)
Definition scorecard_detections : list Detection :=
  [ {| text := Py.lit "7"; confidence := 0.9;
       bbox := {| bbox_x := 30; bbox_y := 20;
                  bbox_width := 5; bbox_height := 5 |} |};
    {| text := Py.lit "3"; confidence := 0.8;
       bbox := {| bbox_x := 10; bbox_y := 20;
                  bbox_width := 5; bbox_height := 5 |} |};
    {| text := Py.lit "5"; confidence := 0.7;
       bbox := {| bbox_x := 10; bbox_y := 20;
                  bbox_width := 6; bbox_height := 6 |} |};
    {| text := Py.lit "12"; confidence := 0.6;
       bbox := {| bbox_x := 5; bbox_y := 40;
                  bbox_width := 8; bbox_height := 5 |} |};
    {| text := Py.lit "Hole"; confidence := 0.99;
       bbox := {| bbox_x := 0; bbox_y := 0;
                  bbox_width := 20; bbox_height := 5 |} |};
    {| text := Py.lit "2"; confidence := 0.95;
       bbox := {| bbox_x := 50; bbox_y := 10;
                  bbox_width := 5; bbox_height := 5 |} |} ].

(** What the score extractor owes for [detections] and [h] expected holes:
    a report bounded by [h] and by the number of valid candidates, whose
    total is the sum of its scores, whose confidence is the arithmetic mean
    of the confidences of the candidates it reports (0 when there are
    none), and whose [holes_found] counts its scores.  When there is no
    report, some detection's trimmed text passes [isdigit] and [int] raised
    on it. *)
Definition extraction_outcome (detections : list Detection) (h : Z)
           (outcome : Py.result Scores.ScoreReport) : Prop :=
  match outcome with
  | Py.Ok report =>
      (Z.of_nat (List.length (Scores.scores report)) <= h)%Z /\
      (List.length (Scores.scores report)
       <= List.length (filter is_score detections))%nat /\
      Scores.total report = Zsum (Scores.scores report) /\
      (exists taken rest,
          Permutation (taken ++ rest)
                      (map as_candidate (filter is_score detections)) /\
          Scores.scores report = map score taken /\
          (taken = [] -> Scores.avg_confidence report == 0) /\
          (taken <> [] ->
           Scores.avg_confidence report
           == Qsum (map score_confidence taken)
              / inject_Z (Z.of_nat (List.length taken)))) /\
      Scores.holes_found report
      = Z.of_nat (List.length (Scores.scores report))
  | Py.Err e =>
      exists d, In d detections /\
                Py.isdigit (Py.strip (text d)) = true /\
                Py.int (Py.strip (text d)) = Py.Err e
  end.

(** The reply to a request without an image: status 400, [success] false,
    the fixed error message, a [processing_time] and no [detections]. *)
Definition missing_image_response (outcome : Py.result view_result) : Prop :=
  exists view,
    outcome = Py.Ok view /\
    http_status view = 400%Z /\
    get (http_body view) "success" = Some (VBool false) /\
    get (http_body view) "error"
    = Some (VStr (Py.lit "Missing image data in request")) /\
    has_key (http_body view) "processing_time" = true /\
    has_key (http_body view) "detections" = false.

(** The reader's result for a region that reads as a superscript two. *)
Definition raw_superscript_two : RawDetection :=
  {| region := ((0, 0), (5, 0), (5, 5), (0, 5));
     raw_text := [0xb2%N];
     raw_confidence := 0.9 |}.

(** A request that carries an image. *)
Definition image_request : request_json :=
  VDict [ ("image", VStr (Py.lit "aGVsbG8=")) ].

(** A detection with its text cleaned. *)
Definition clean_text_of (d : Detection) : Detection :=
  {| text := Enhanced.clean_golf_text (text d);
     confidence := confidence d;
     bbox := bbox d |}.

(** Any two different detections that pass the filter have their boxes at
    different positions. *)
Definition distinct_positions (ds : list Detection) : Prop :=
  forall a b, In a ds -> In b ds ->
              is_score a = true -> is_score b = true ->
              a = b \/
              ~ (bbox_y (bbox a) == bbox_y (bbox b) /\
                 bbox_x (bbox a) == bbox_x (bbox b)).

(** Raw detections in non-increasing order of confidence. *)
Definition ranked (results : list RawDetection) : Prop :=
  StronglySorted (fun a b => raw_confidence b <= raw_confidence a) results.

(** The reader's result for a region that reads as a four, less certain. *)
Definition raw_four : RawDetection :=
  {| region := ((10, 10), (15, 10), (15, 15), (10, 15));
     raw_text := Py.lit "4";
     raw_confidence := 0.6 |}.

(** Values that cannot bound a slice: everything but [None], integers and
    booleans. *)
Definition not_an_index (v : value) : Prop :=
  match v with
  | VNone | VInt _ | VBool _ => False
  | _ => True
  end.

(** Loading the image of a request: [request.json['image']] and then the
    decoding, either of which can raise. *)
Definition loaded (image : Type) (env : Env image) (request : request_json)
  : Py.result image :=
  image_data <~ item request "image" ;;
  load_image env image_data.

(** Recognition in the enhanced server: preprocessing and then the reader. *)
Definition recognized (image : Type) (env : Env image) (img : image)
  : Py.result (list RawDetection) :=
  processed_image <~ Enhanced.preprocess_image env img ;;
  readtext env processed_image.

(** The body of a failure response. *)
Definition failure_body (message : Py.str) (processing_time : Q) : dict :=
  [ ("success", VBool false);
    ("error", VStr message);
    ("processing_time", VFloat processing_time) ].

(** An [/ocr] answer is either a success (status 200, [success] true, a
    list of detections) or a failure (status 400 or 500, [success] false, an
    error message, no detections). *)
Definition ocr_answer (view : view_result) : Prop :=
  (http_status view = 200%Z /\
   get (http_body view) "success" = Some (VBool true) /\
   exists ds, get (http_body view) "detections" = Some (VDetections ds)) \/
  ((http_status view = 400%Z \/ http_status view = 500%Z) /\
   get (http_body view) "success" = Some (VBool false) /\
   has_key (http_body view) "detections" = false /\
   exists m, get (http_body view) "error" = Some (VStr m)).

(** A clock that never goes backwards. *)
Definition monotone_clock (image : Type) (env : Env image) : Prop :=
  forall n m, (n <= m)%nat -> wall env n <= wall env m.

(** The response carries a [processing_time] that is not negative. *)
Definition timed (view : view_result) : Prop :=
  exists t, get (http_body view) "processing_time" = Some (VFloat t)
            /\ 0 <= t.

(** A process in which no image can be loaded. *)
Definition failing_loader : Env unit :=
  {| wall := fun n => inject_Z (Z.of_nat n);
     str_exn := fun _ => Py.lit "error";
     load_image :=
       fun _ => Py.Err (Py.Raised (Py.lit "cannot identify image file"));
     is_colour := fun _ => true;
     cvtColor_gray := fun i => Py.Ok i;
     clahe_apply := fun i => Py.Ok i;
     bilateralFilter := fun i => Py.Ok i;
     filter2D := fun i => Py.Ok i;
     normalize := fun i => Py.Ok i;
     readtext := fun _ => Py.Ok [] |}.

(** A process whose reader fails on every image. *)
Definition failing_reader : Env unit :=
  {| wall := fun n => inject_Z (Z.of_nat n);
     str_exn := fun _ => Py.lit "error";
     load_image := fun _ => Py.Ok tt;
     is_colour := fun _ => true;
     cvtColor_gray := fun i => Py.Ok i;
     clahe_apply := fun i => Py.Ok i;
     bilateralFilter := fun i => Py.Ok i;
     filter2D := fun i => Py.Ok i;
     normalize := fun i => Py.Ok i;
     readtext := fun _ => Py.Err (Py.Raised (Py.lit "out of memory")) |}.

(** The handler answered, and its response is [timed]. *)
Definition answers_timed (outcome : Py.result view_result * clock) : Prop :=
  exists view c', outcome = (Py.Ok view, c') /\ timed view.

(** The body of a successful [/extract_scores] response. *)
Definition scores_body (report : Scores.ScoreReport) (processing_time : Q)
  : dict :=
  [ ("success", VBool true);
    ("scores", VInts (Scores.scores report));
    ("total", VInt (Scores.total report));
    ("confidence", VFloat (Scores.avg_confidence report));
    ("holes_found", VInt (Scores.holes_found report));
    ("expected_holes", Scores.expected_holes report);
    ("processing_time", VFloat processing_time) ].

(* ------------------------------------------------------------------ *)
(** ** Properties of the built-ins *)

Lemma isspace_blank : Py.isspace 32%N = true.
Proof. reflexivity. Qed.

Lemma lit_blank : Py.lit " " = [32%N].
Proof. reflexivity. Qed.

Lemma split_from_word (w acc s : Py.str) :
  forallb (fun c => negb (Py.isspace c)) w = true ->
  Py.split_from acc (w ++ s) = Py.split_from (acc ++ w) s.
Proof.
  revert acc.
  induction w as [|c w IH]; intros acc Hw; simpl.
  - now rewrite app_nil_r.
  - simpl in Hw. apply andb_true_iff in Hw as [Hc Hw].
    apply negb_true_iff in Hc. rewrite Hc, IH by assumption.
    now rewrite <- app_assoc.
Qed.

Lemma flush_word (w : Py.str) : w <> [] -> Py.flush w = [w].
Proof. destruct w; [congruence | reflexivity]. Qed.

Lemma split_join (ws : list Py.str) :
  Forall is_word ws -> Py.split (Py.join (Py.lit " ") ws) = ws.
Proof.
  rewrite lit_blank. unfold Py.split.
  induction 1 as [|w ws [Hne Hw] Hws IH]; [reflexivity|].
  destruct ws as [|w' ws].
  - simpl. rewrite <- (app_nil_r w) at 1.
    rewrite split_from_word by assumption. simpl. now apply flush_word.
  - change (Py.join [32%N] (w :: w' :: ws))
      with (w ++ 32%N :: Py.join [32%N] (w' :: ws)).
    rewrite split_from_word by assumption.
    cbn [Py.split_from app]. rewrite isspace_blank, IH.
    now rewrite flush_word.
Qed.

Lemma split_from_words (s acc : Py.str) :
  forallb (fun c => negb (Py.isspace c)) acc = true ->
  Forall is_word (Py.split_from acc s).
Proof.
  revert acc.
  induction s as [|c s IH]; intros acc Hacc; simpl.
  - destruct acc; constructor; [|constructor]. split; [congruence | assumption].
  - destruct (Py.isspace c) eqn:Hc.
    + apply Forall_app. split; [|now apply IH].
      destruct acc; constructor; [|constructor].
      split; [congruence | assumption].
    + apply IH. rewrite forallb_app, Hacc. simpl. now rewrite Hc.
Qed.

Lemma split_words (s : Py.str) : Forall is_word (Py.split s).
Proof. now apply split_from_words. Qed.

Lemma split_blank (s : Py.str) :
  forallb Py.isspace s = true -> Py.split s = [].
Proof.
  unfold Py.split.
  induction s as [|c s IH]; simpl; [reflexivity|].
  intros H. apply andb_true_iff in H as [Hc Hs]. rewrite Hc. now apply IH.
Qed.

(** ** Properties of [clean_golf_text] *)

Lemma corrections_table :
  Enhanced.corrections
  = [ (79, 48); (111, 48); (108, 49); (73, 49);
      (83, 53); (71, 54); (66, 56); (124, 49) ]%N.
Proof. reflexivity. Qed.

Ltac split_chars :=
  repeat match goal with
         | |- context [N.eqb ?a ?b] =>
             destruct (N.eqb_spec a b); try subst; try discriminate;
             try congruence
         end.

Lemma subst_cases (c : Py.char) :
  subst c = c \/ In (subst c) [48; 49; 53; 54; 56]%N.
Proof.
  unfold subst. rewrite corrections_table. simpl.
  split_chars; simpl; auto 10.
Qed.

Lemma subst_subst (c : Py.char) : subst (subst c) = subst c.
Proof.
  destruct (subst_cases c) as [E | H]; [now rewrite !E|].
  simpl in H.
  repeat (destruct H as [<- | H]; [reflexivity|]). contradiction.
Qed.

Lemma subst_not_space (c : Py.char) :
  Py.isspace c = false -> Py.isspace (subst c) = false.
Proof.
  intros Hc. destruct (subst_cases c) as [-> | H]; [assumption|].
  simpl in H.
  repeat (destruct H as [<- | H]; [reflexivity|]). contradiction.
Qed.

Lemma subst_fixed (c : Py.char) :
  Enhanced.in_corrections c = false -> subst c = c.
Proof.
  unfold Enhanced.in_corrections, subst.
  now destruct (Enhanced.lookup c Enhanced.corrections).
Qed.

(** Replacing the keys one after the other is the substitution: no value of
    the table is a key. *)
Lemma replace_all (w : Py.str) :
  fold_left (fun corrected_word '(old_char, new_char) =>
               Py.replace old_char new_char corrected_word)
            Enhanced.corrections w
  = map subst w.
Proof.
  rewrite corrections_table. simpl. unfold Py.replace.
  rewrite !map_map. apply map_ext. intros c.
  unfold subst. rewrite corrections_table. simpl.
  split_chars; reflexivity.
Qed.

Lemma map_subst_fixed (w : Py.str) :
  existsb Enhanced.in_corrections w = false -> map subst w = w.
Proof.
  induction w as [|c w IH]; simpl; [reflexivity|].
  intros H. apply orb_false_iff in H as [Hc Hw].
  now rewrite subst_fixed, IH.
Qed.

(** What the loop body does to a word, in the specification's terms: words
    of at most three characters have every table character replaced, longer
    words are left alone. *)
Lemma correct_word_subst (w : Py.str) :
  Enhanced.correct_word w
  = if (List.length w <=? 3)%nat then map subst w else w.
Proof.
  unfold Enhanced.correct_word.
  destruct w as [|c [|c' w']].
  - reflexivity.
  - cbn [List.length Nat.eqb Nat.leb andb existsb orb map
         Enhanced.word_in_corrections Enhanced.corrections_at].
    unfold Enhanced.in_corrections, subst.
    now destruct (Enhanced.lookup c Enhanced.corrections).
  - replace (List.length (c :: c' :: w') =? 1)%nat with false by reflexivity.
    cbn [andb].
    destruct (List.length (c :: c' :: w') <=? 3)%nat; [|reflexivity].
    cbn [andb].
    destruct (existsb Enhanced.in_corrections (c :: c' :: w')) eqn:E.
    + apply replace_all.
    + symmetry. now apply map_subst_fixed.
Qed.

Lemma correct_word_idem (w : Py.str) :
  Enhanced.correct_word (Enhanced.correct_word w) = Enhanced.correct_word w.
Proof.
  rewrite (correct_word_subst w).
  destruct (List.length w <=? 3)%nat eqn:E.
  - rewrite correct_word_subst, length_map, E, map_map.
    apply map_ext. intros c. apply subst_subst.
  - now rewrite correct_word_subst, E.
Qed.

Lemma correct_word_word (w : Py.str) :
  is_word w -> is_word (Enhanced.correct_word w).
Proof.
  intros [Hne Hw]. rewrite correct_word_subst.
  destruct (List.length w <=? 3)%nat; [|now split].
  split.
  - destruct w; [congruence | discriminate].
  - rewrite forallb_forall in *. intros c Hc.
    apply in_map_iff in Hc as [c0 [<- Hc0]].
    apply negb_true_iff, subst_not_space, negb_true_iff. now apply Hw.
Qed.

Lemma clean_golf_text_words (s : Py.str) :
  Enhanced.clean_golf_text s
  = Py.join (Py.lit " ") (map Enhanced.correct_word (Py.split s)).
Proof.
  unfold Enhanced.clean_golf_text. destruct s as [|c s]; [reflexivity|].
  cbv zeta. now rewrite split_join by apply split_words.
Qed.

(** ** Properties of [list.sort] *)

Section SortFacts.
Variables A K : Type.
Variable lt : K -> K -> bool.
Variable key : A -> K.

(** [<] on the keys is a strict weak order. *)
Hypothesis lt_asym : forall x y, lt x y = true -> lt y x = false.
Hypothesis nlt_trans :
  forall x y z, lt y x = false -> lt z y = false -> lt z x = false.

Local Abbreviation insert := (PySort.insert lt key).
Local Abbreviation ascending := (PySort.ascending lt key).
Local Abbreviation sort := (PySort.sort lt key).
Local Abbreviation not_after := (fun a b => lt (key b) (key a) = false).
Local Abbreviation not_before := (fun a b => lt (key a) (key b) = false).

Lemma insert_perm (a : A) (l : list A) : Permutation (insert a l) (a :: l).
Proof.
  induction l as [|b l IH]; simpl; [reflexivity|].
  destruct (lt (key b) (key a)); [|reflexivity].
  rewrite IH. apply perm_swap.
Qed.

Lemma ascending_perm (l : list A) : Permutation (ascending l) l.
Proof.
  induction l as [|a l IH]; simpl; [reflexivity|].
  rewrite insert_perm. now constructor.
Qed.

Lemma insert_sorted (a : A) (l : list A) :
  StronglySorted not_after l -> StronglySorted not_after (insert a l).
Proof.
  induction 1 as [|b l Hl IH Hb]; simpl.
  - repeat constructor.
  - destruct (lt (key b) (key a)) eqn:E.
    + constructor; [assumption|].
      rewrite insert_perm. constructor; [|assumption].
      now apply lt_asym.
    + constructor; [now constructor|].
      constructor; [assumption|].
      eapply Forall_impl; [|exact Hb].
      intros x Hx. cbv beta in *. now apply nlt_trans with (key b).
Qed.

Lemma ascending_sorted (l : list A) : StronglySorted not_after (ascending l).
Proof.
  induction l as [|a l IH]; simpl; [constructor | now apply insert_sorted].
Qed.

Lemma filter_insert_in (p : A -> bool) (a : A) (l : list A) :
  p a = true ->
  (forall b, In b l -> p b = true -> lt (key b) (key a) = false) ->
  filter p (insert a l) = a :: filter p l.
Proof.
  intros Ha. induction l as [|b l IH]; intros Hl; simpl.
  - now rewrite Ha.
  - destruct (lt (key b) (key a)) eqn:E; simpl.
    + destruct (p b) eqn:Hb.
      * rewrite Hl in E; [discriminate | now left | assumption].
      * apply IH. intros x Hx. apply Hl. now right.
    + now rewrite Ha.
Qed.

Lemma filter_insert_out (p : A -> bool) (a : A) (l : list A) :
  p a = false -> filter p (insert a l) = filter p l.
Proof.
  intros Ha. induction l as [|b l IH]; simpl.
  - now rewrite Ha.
  - destruct (lt (key b) (key a)); simpl.
    + now rewrite IH.
    + now rewrite Ha.
Qed.

(** Stability: the elements picked out by a test that only selects
    elements with tied keys stay in their original order. *)
Lemma ascending_stable (p : A -> bool) (l : list A) :
  (forall a b, p a = true -> p b = true -> lt (key a) (key b) = false) ->
  filter p (ascending l) = filter p l.
Proof.
  intros Hp. induction l as [|a l IH]; simpl; [reflexivity|].
  destruct (p a) eqn:Ha.
  - rewrite filter_insert_in, IH; auto.
  - now rewrite filter_insert_out, IH.
Qed.

Lemma sorted_snoc (R : A -> A -> Prop) (l : list A) (a : A) :
  StronglySorted R l -> Forall (fun x => R x a) l ->
  StronglySorted R (l ++ [a]).
Proof.
  induction 1 as [|b l Hl IH Hb]; intros Ha; simpl.
  - repeat constructor.
  - inversion Ha; subst. constructor; [now apply IH|].
    apply Forall_app. split; [assumption | now repeat constructor].
Qed.

Lemma sorted_rev (R : A -> A -> Prop) (l : list A) :
  StronglySorted R l -> StronglySorted (fun a b => R b a) (rev l).
Proof.
  induction 1 as [|b l Hl IH Hb]; simpl; [constructor|].
  apply sorted_snoc; [assumption | now apply Forall_rev].
Qed.

Lemma sort_perm (reverse : bool) (l : list A) :
  Permutation (sort reverse l) l.
Proof.
  destruct reverse; simpl; [|apply ascending_perm].
  now rewrite <- Permutation_rev, ascending_perm, <- Permutation_rev.
Qed.

Lemma sort_ascending (l : list A) :
  StronglySorted not_after (sort false l).
Proof. apply ascending_sorted. Qed.

Lemma sort_descending (l : list A) :
  StronglySorted not_before (sort true l).
Proof. simpl. apply (sorted_rev (ascending_sorted (rev l))). Qed.

Lemma sort_stable (reverse : bool) (p : A -> bool) (l : list A) :
  (forall a b, p a = true -> p b = true -> lt (key a) (key b) = false) ->
  filter p (sort reverse l) = filter p l.
Proof.
  intros Hp. destruct reverse; simpl; [|now apply ascending_stable].
  now rewrite filter_rev, ascending_stable, filter_rev, rev_involutive.
Qed.
End SortFacts.

Lemma sorted_impl (A : Type) (R R' : A -> A -> Prop) (l : list A) :
  (forall a b, R a b -> R' a b) -> StronglySorted R l -> StronglySorted R' l.
Proof.
  intros HR. induction 1 as [|a l Hl IH Ha]; constructor; [assumption|].
  eapply Forall_impl; [|exact Ha]. apply HR.
Qed.

(** The two orders the servers sort by. *)

Lemma Qltb_lt (a b : Q) : Qltb a b = true <-> a < b.
Proof.
  unfold Qltb. rewrite negb_true_iff, <- not_true_iff_false, Qle_bool_iff.
  split; [apply Qnot_le_lt | apply Qlt_not_le].
Qed.

Lemma Qltb_ge (a b : Q) : Qltb a b = false <-> b <= a.
Proof.
  unfold Qltb. now rewrite negb_false_iff, Qle_bool_iff.
Qed.

Lemma Qltb_asym (x y : Q) : Qltb x y = true -> Qltb y x = false.
Proof. rewrite Qltb_lt, Qltb_ge. apply Qlt_le_weak. Qed.

Lemma Qltb_nlt_trans (x y z : Q) :
  Qltb y x = false -> Qltb z y = false -> Qltb z x = false.
Proof. rewrite !Qltb_ge. apply Qle_trans. Qed.

Lemma pair_ltb_ge (a b : Q * Q) :
  pair_ltb a b = false <->
  fst b < fst a \/ (fst b == fst a /\ snd b <= snd a).
Proof.
  unfold pair_ltb. destruct (Qeq_bool (fst a) (fst b)) eqn:E.
  - apply Qeq_bool_iff in E. rewrite Qltb_ge. split.
    + intros H. right. split; [now symmetry | assumption].
    + intros [H | [_ H]]; [|assumption].
      rewrite E in H. now apply Qlt_irrefl in H.
  - apply Qeq_bool_neq in E. rewrite Qltb_ge. split.
    + intros H. left. apply Qle_lt_or_eq in H as [H | H]; [assumption|].
      now symmetry in H.
    + intros [H | [H _]]; [now apply Qlt_le_weak | now symmetry in H].
Qed.

Lemma pair_ltb_asym (x y : Q * Q) :
  pair_ltb x y = true -> pair_ltb y x = false.
Proof.
  intros H. apply pair_ltb_ge. unfold pair_ltb in H.
  destruct (Qeq_bool (fst x) (fst y)) eqn:E.
  - apply Qeq_bool_iff in E. apply Qltb_lt in H.
    right. split; [assumption | now apply Qlt_le_weak].
  - apply Qltb_lt in H. now left.
Qed.

Lemma pair_ltb_nlt_trans (x y z : Q * Q) :
  pair_ltb y x = false -> pair_ltb z y = false -> pair_ltb z x = false.
Proof.
  rewrite !pair_ltb_ge.
  intros [H1 | [H1 H1']] [H2 | [H2 H2']].
  - left. now apply Qlt_trans with (fst y).
  - left. now rewrite <- H2.
  - left. now rewrite H1.
  - right. split; [now rewrite H1 | now apply Qle_trans with (snd y)].
Qed.

(* ------------------------------------------------------------------ *)
(** ** The text normalizer *)

(** C8: [clean("O") = "0"], [clean("lI") = "11"], [clean("CARD") = "CARD"],
    [clean("  4   5 ") = "4 5"], and an input that is empty or holds only
    whitespace is cleaned to the empty string. *)
Theorem clean_golf_text_examples :
  Enhanced.clean_golf_text (Py.lit "O") = Py.lit "0" /\
  Enhanced.clean_golf_text (Py.lit "lI") = Py.lit "11" /\
  Enhanced.clean_golf_text (Py.lit "CARD") = Py.lit "CARD" /\
  Enhanced.clean_golf_text (Py.lit "  4   5 ") = Py.lit "4 5" /\
  Enhanced.clean_golf_text [] = [] /\
  (forall s, forallb Py.isspace s = true -> Enhanced.clean_golf_text s = []).
Proof.
  repeat split; try reflexivity.
  intros s Hs. rewrite clean_golf_text_words, split_blank by assumption.
  reflexivity.
Qed.

Lemma clean_golf_text_blank_witness :
  Enhanced.clean_golf_text (Py.lit "   ") = [].
Proof.
  exact (proj2 (proj2 (proj2 (proj2 (proj2 clean_golf_text_examples))))
           (Py.lit "   ") eq_refl).
Defined.

(** C6: cleaning is idempotent: [clean(clean(s)) = clean(s)] for every
    string [s]. *)
Theorem clean_golf_text_idempotent (s : Py.str) :
  Enhanced.clean_golf_text (Enhanced.clean_golf_text s)
  = Enhanced.clean_golf_text s.
Proof.
  rewrite (clean_golf_text_words s).
  rewrite clean_golf_text_words, split_join, map_map.
  - f_equal. apply map_ext. intros w. apply correct_word_idem.
  - apply Forall_map. eapply Forall_impl; [|apply split_words].
    intros w. apply correct_word_word.
Qed.

(* ------------------------------------------------------------------ *)
(** ** The detection ranker *)

(** C3: [extract_text_with_confidence] returns as many detections as it is
    given raw detections (exactly the converted ones, none dropped), in
    non-increasing order of confidence, and detections with the same
    confidence stay in their input order. *)
Theorem extract_text_with_confidence_ranks (results : list RawDetection) :
  let detections := map (detection_of Enhanced.clean_golf_text) results in
  let ranked := Enhanced.extract_text_with_confidence results in
  List.length ranked = List.length results /\
  Permutation ranked detections /\
  StronglySorted (fun a b => confidence b <= confidence a) ranked /\
  (forall c, filter (has_confidence c) ranked
             = filter (has_confidence c) detections).
Proof.
  cbv zeta. unfold Enhanced.extract_text_with_confidence.
  pose proof (sort_perm Qltb confidence true
                (map (detection_of Enhanced.clean_golf_text) results)) as HP.
  repeat split.
  - rewrite (Permutation_length HP). apply length_map.
  - exact HP.
  - eapply sorted_impl;
      [|apply sort_descending; [apply Qltb_asym | apply Qltb_nlt_trans]].
    intros a b. apply Qltb_ge.
  - intros c. apply sort_stable. unfold has_confidence.
    intros a b Ha Hb. apply Qeq_bool_iff in Ha, Hb.
    apply Qltb_ge. rewrite Ha, Hb. apply Qle_refl.
Qed.

(* ------------------------------------------------------------------ *)
(** ** The score extractor *)

Lemma digits_value_decimal (s : Py.str) (acc z : Z) :
  Py.digits_value acc s = Some z -> forallb Py.isdecimal_char s = true.
Proof.
  revert acc. induction s as [|c s IH]; intros acc; simpl; [reflexivity|].
  unfold Py.isdecimal_char.
  destruct (Py.decimal_value c); [|discriminate].
  intros H. simpl. now apply IH in H.
Qed.

Lemma int_ok_decimal (s : Py.str) (z : Z) :
  Py.int s = Py.Ok z -> s <> [] /\ all_decimal_digits s = true.
Proof.
  unfold Py.int. destruct s as [|c s]; [discriminate|].
  destruct (Py.digits_value 0 (c :: s)) eqn:E; [|discriminate].
  intros _. split; [discriminate | now apply digits_value_decimal in E].
Qed.

Lemma decimal_isdigit (s : Py.str) :
  s <> [] -> all_decimal_digits s = true -> Py.isdigit s = true.
Proof.
  unfold Py.isdigit, all_decimal_digits.
  destruct s as [|c s]; [congruence|]. intros _ H.
  rewrite forallb_forall in *. intros x Hx.
  unfold Py.isdigit_char. now rewrite (H x Hx).
Qed.

(** The loop body against the filter of the specification. *)
Lemma candidate_is_score (d : Detection) :
  is_score d = true ->
  Scores.candidate d = Py.Ok (Some (as_candidate d)).
Proof.
  unfold is_score, parses_within, Scores.candidate, as_candidate.
  cbv zeta. intros H.
  apply andb_true_iff in H as [H Hc]. apply andb_true_iff in H as [Hd Hp].
  destruct (Py.int (Py.strip (text d))) as [n|e] eqn:E; [|discriminate].
  destruct (int_ok_decimal _ E) as [Hne _].
  rewrite (decimal_isdigit Hne Hd). simpl. now rewrite Hp, Hc.
Qed.

Lemma candidate_not_score (d : Detection) :
  is_score d = false ->
  Scores.candidate d = Py.Ok None \/
  (Py.isdigit (Py.strip (text d)) = true /\
   exists e, Py.int (Py.strip (text d)) = Py.Err e /\
             Scores.candidate d = Py.Err e).
Proof.
  unfold is_score, parses_within, Scores.candidate. cbv zeta. intros H.
  destruct (Py.isdigit (Py.strip (text d))) eqn:Hdig; [|now left].
  destruct (Py.int (Py.strip (text d))) as [n|e] eqn:E.
  - left. simpl. destruct (int_ok_decimal _ E) as [_ Hd].
    rewrite Hd in H. simpl in H. now rewrite H.
  - right. split; [reflexivity|]. now exists e.
Qed.

Lemma collect_acc (ds : list Detection) (acc : list ScoreCandidate) :
  Scores.collect acc ds
  = match Scores.collect [] ds with
    | Py.Ok cs => Py.Ok (acc ++ cs)
    | Py.Err e => Py.Err e
    end.
Proof.
  revert acc. induction ds as [|d ds IH]; intros acc; simpl.
  - now rewrite app_nil_r.
  - destruct (Scores.candidate d) as [[s|]|e]; simpl; [| apply IH | reflexivity].
    rewrite (IH (acc ++ [s])), (IH [s]).
    destruct (Scores.collect [] ds); [|reflexivity].
    now rewrite <- app_assoc.
Qed.

(** The loop keeps exactly the detections that pass the filter, in order,
    unless [int] raises on one of them. *)
Lemma collect_outcome (ds : list Detection) :
  match Scores.collect [] ds with
  | Py.Ok cs => cs = map as_candidate (filter is_score ds)
  | Py.Err e => exists d, In d ds /\
                          Py.isdigit (Py.strip (text d)) = true /\
                          Py.int (Py.strip (text d)) = Py.Err e
  end.
Proof.
  induction ds as [|d ds IH]; [reflexivity|].
  cbn [Scores.collect filter]. destruct (is_score d) eqn:Hd.
  - rewrite (candidate_is_score d Hd). cbn [rbind app].
    rewrite collect_acc. destruct (Scores.collect [] ds) as [cs|e].
    + now rewrite IH.
    + destruct IH as [d' [Hin H]]. exists d'. split; [now right | exact H].
  - destruct (candidate_not_score d Hd) as [-> | [Hdig [e [He ->]]]].
    + cbn [rbind]. destruct (Scores.collect [] ds) as [cs|e]; [exact IH|].
      destruct IH as [d' [Hin H]]. exists d'. split; [now right | exact H].
    + cbn [rbind]. exists d. split; [now left | now split].
Qed.

Lemma collect_ok (ds : list Detection) (cs : list ScoreCandidate) :
  Scores.collect [] ds = Py.Ok cs -> cs = map as_candidate (filter is_score ds).
Proof. intros H. pose proof (collect_outcome ds) as O. now rewrite H in O. Qed.

(** C4: the loop keeps a detection if and only if its trimmed text consists
    entirely of decimal digits, parses to an integer in [1,12], and its
    confidence is strictly above 0.5; the candidates collected are those
    detections in input order; "13" and "0" are excluded and so is every
    detection whose confidence is exactly 0.5. *)
Theorem candidate_filter :
  (forall d, (exists s, Scores.candidate d = Py.Ok (Some s))
             <-> is_score d = true) /\
  (forall ds cs, Scores.collect [] ds = Py.Ok cs ->
                 cs = map as_candidate (filter is_score ds)) /\
  (forall c b, Scores.candidate
                 {| text := Py.lit "13"; confidence := c; bbox := b |}
               = Py.Ok None) /\
  (forall c b, Scores.candidate
                 {| text := Py.lit "0"; confidence := c; bbox := b |}
               = Py.Ok None) /\
  (forall d, confidence d == 0.5 -> is_score d = false).
Proof.
  repeat split.
  - intros [s H]. destruct (is_score d) eqn:E; [reflexivity|].
    destruct (candidate_not_score d E) as [H' | [_ [e [_ H']]]];
      rewrite H' in H; discriminate.
  - intros H. eexists. now apply candidate_is_score.
  - apply collect_ok.
  - intros d H. unfold is_score. cbv zeta.
    replace (Qltb 0.5 (confidence d)) with false; [apply andb_false_r|].
    symmetry. apply Qltb_ge. rewrite H. apply Qle_refl.
Qed.

Lemma sum_Zsum (l : list Z) : Scores.sum l = Zsum l.
Proof.
  unfold Scores.sum, Zsum.
  enough (H : forall a, fold_left Z.add l a = (a + fold_right Z.add 0 l)%Z)
    by now rewrite H.
  induction l as [|z l IH]; intros a; simpl; [lia|].
  rewrite IH. lia.
Qed.

Lemma mean_Qsum (l : list Q) :
  Scores.mean l == Qsum l / inject_Z (Z.of_nat (List.length l)).
Proof.
  unfold Scores.mean, Qsum.
  enough (H : forall a, fold_left Qplus l a == a + fold_right Qplus 0 l).
  { rewrite H. now rewrite Qplus_0_l. }
  induction l as [|q l IH]; intros a; simpl.
  - now rewrite Qplus_0_r.
  - rewrite IH. now rewrite Qplus_assoc.
Qed.

(** The report in terms of the candidates the loop collected. *)
Lemma extract_ok (ds : list Detection) (h : Z) (cs : list ScoreCandidate) :
  (0 <= h)%Z ->
  Scores.collect [] ds = Py.Ok cs ->
  let ordered := PySort.sort pair_ltb Scores.position false cs in
  let taken := firstn (Z.to_nat h) ordered in
  Scores.extract ds (VInt h)
  = Py.Ok {| Scores.scores := map score taken;
             Scores.total := Scores.sum (map score taken);
             Scores.avg_confidence :=
               match map score taken with
               | [] => 0.0
               | _ => Scores.mean (map score_confidence taken)
               end;
             Scores.holes_found :=
               Z.of_nat (List.length (map score taken));
             Scores.expected_holes := VInt h |}.
Proof.
  intros Hh Hcs. unfold Scores.extract. rewrite Hcs. cbn [rbind].
  unfold Scores.slice_to.
  apply Z.leb_le in Hh. rewrite Hh. reflexivity.
Qed.

Lemma extract_err (ds : list Detection) (v : value) (e : Py.exn) :
  Scores.collect [] ds = Py.Err e -> Scores.extract ds v = Py.Err e.
Proof. intros H. unfold Scores.extract. now rewrite H. Qed.

Lemma position_sorted (cs : list ScoreCandidate) :
  StronglySorted reading_le (PySort.sort pair_ltb Scores.position false cs).
Proof.
  eapply sorted_impl;
    [|apply sort_ascending; [apply pair_ltb_asym | apply pair_ltb_nlt_trans]].
  intros a b H. apply pair_ltb_ge in H. exact H.
Qed.

Lemma position_stable (ky kx : Q) (cs : list ScoreCandidate) :
  filter (at_position ky kx) (PySort.sort pair_ltb Scores.position false cs)
  = filter (at_position ky kx) cs.
Proof.
  apply sort_stable. unfold at_position. intros a b Ha Hb.
  apply andb_true_iff in Ha as [Hay Hax], Hb as [Hby Hbx].
  apply Qeq_bool_iff in Hay, Hax, Hby, Hbx.
  apply pair_ltb_ge. right. simpl. rewrite Hay, Hax, Hby, Hbx.
  split; [reflexivity | apply Qle_refl].
Qed.

(** C7: the candidates are put in reading order (ascending [bbox.y], then
    ascending [bbox.x]), candidates at the same position keeping their input
    order, and the reported scores are those of the first [expected_holes]
    candidates of that order, all of them when there are fewer. *)
Theorem extract_reading_order
        (detections : list Detection) (h : Z)
        (candidates : list ScoreCandidate) :
  (0 <= h)%Z ->
  Scores.collect [] detections = Py.Ok candidates ->
  exists ordered report,
    Permutation ordered candidates /\
    StronglySorted reading_le ordered /\
    (forall ky kx, filter (at_position ky kx) ordered
                   = filter (at_position ky kx) candidates) /\
    Scores.extract detections (VInt h) = Py.Ok report /\
    Scores.scores report = map score (firstn (Z.to_nat h) ordered) /\
    ((Z.of_nat (List.length ordered) <= h)%Z ->
     Scores.scores report = map score ordered).
Proof.
  intros Hh Hcs. pose proof (extract_ok detections Hh Hcs) as E.
  cbv zeta in E.
  exists (PySort.sort pair_ltb Scores.position false candidates).
  eexists.
  split; [apply sort_perm|].
  split; [apply position_sorted|].
  split; [intros ky kx; apply position_stable|].
  split; [exact E|].
  split; [reflexivity|].
  intros Hall. cbn [Scores.scores]. now rewrite firstn_all2 by lia.
Qed.

Lemma extract_reading_order_witness :
  exists ordered report,
    Permutation ordered
                (map as_candidate (filter is_score scorecard_detections)) /\
    StronglySorted reading_le ordered /\
    (forall ky kx,
        filter (at_position ky kx) ordered
        = filter (at_position ky kx)
                 (map as_candidate (filter is_score scorecard_detections))) /\
    Scores.extract scorecard_detections (VInt 3) = Py.Ok report /\
    Scores.scores report = map score (firstn (Z.to_nat 3) ordered) /\
    ((Z.of_nat (List.length ordered) <= 3)%Z ->
     Scores.scores report = map score ordered).
Proof.
  apply (@extract_reading_order scorecard_detections 3
           (map as_candidate (filter is_score scorecard_detections))).
  - discriminate.
  - reflexivity.
Defined.

(** On the scorecard row the five candidates come out in reading order,
    "3" before "5" at their common position as in the input, and
    [expected_holes = 3] keeps the first three of them. *)
Example scorecard_reading_order :
  map score (map as_candidate (filter is_score scorecard_detections))
  = [7; 3; 5; 12; 2]%Z /\
  map score (PySort.sort pair_ltb Scores.position false
               (map as_candidate (filter is_score scorecard_detections)))
  = [2; 3; 5; 7; 12]%Z /\
  exists report,
    Scores.extract scorecard_detections (VInt 3) = Py.Ok report /\
    Scores.scores report = [2; 3; 5]%Z /\
    Scores.total report = 10%Z /\
    Scores.holes_found report = 3%Z.
Proof.
  split; [reflexivity|]. split; [reflexivity|].
  eexists. split; [vm_compute; reflexivity|]. repeat split.
Qed.

(** C5: for [expected_holes = h >= 0] the report has at most [h] scores and
    at most as many as there are valid candidates, its total is the sum of
    its scores, its confidence is the arithmetic mean of the confidences of
    the candidates it reports (0 when it reports none), and [holes_found] is
    the number of its scores.  A report is produced unless [int] raises on
    the text of a detection that passed [isdigit]. *)
Theorem extract_report (detections : list Detection) (h : Z) :
  (0 <= h)%Z ->
  extraction_outcome detections h (Scores.extract detections (VInt h)).
Proof.
  intros Hh. pose proof (collect_outcome detections) as O.
  destruct (Scores.collect [] detections) as [cs|e] eqn:E.
  - rewrite (extract_ok detections Hh E). cbv zeta.
    set (ordered := PySort.sort pair_ltb Scores.position false cs).
    assert (HP : Permutation ordered cs) by apply sort_perm.
    unfold extraction_outcome. cbn [Scores.scores Scores.total
      Scores.avg_confidence Scores.holes_found].
    rewrite length_map, length_firstn. repeat split.
    + lia.
    + rewrite <- (length_map as_candidate), <- O, <- (Permutation_length HP).
      apply Nat.le_min_r.
    + apply sum_Zsum.
    + exists (firstn (Z.to_nat h) ordered), (skipn (Z.to_nat h) ordered).
      repeat split.
      * now rewrite firstn_skipn, <- O.
      * intros ->. reflexivity.
      * intros Hne. destruct (firstn (Z.to_nat h) ordered) as [|s l] eqn:F;
          [congruence|].
        cbn [map]. rewrite mean_Qsum. cbn [map List.length].
        rewrite length_map. reflexivity.
  - rewrite (extract_err detections (VInt h) E). exact O.
Qed.

Lemma extract_report_witness :
  extraction_outcome example_detections 2
                     (Scores.extract example_detections (VInt 2)).
Proof. apply (@extract_report example_detections 2). discriminate. Defined.

(** C1 as stated fails: the score server does not clean text, so on the
    three detections of the example the "S" is not a digit string and only
    the "4" is reported. *)
Lemma example_without_cleaning :
  exists report,
    Scores.extract example_detections (VInt 2) = Py.Ok report /\
    Scores.scores report = [4%Z] /\
    Scores.total report = 4%Z /\
    Scores.avg_confidence report == 0.9 /\
    Scores.holes_found report = 1%Z.
Proof.
  eexists. split; [vm_compute; reflexivity|].
  repeat split; reflexivity.
Qed.

(** C1, amended: on the three detections of the example with
    [expected_holes = 2] the score server reports [scores = [4]],
    [total = 4], [confidence = 0.9], [holes_found = 1]; when the texts are
    first cleaned by [clean_golf_text] (so that "S" reads "5") it reports
    [scores = [4,5]], [total = 9], [confidence = 0.8], [holes_found = 2]. *)
Theorem example_end_to_end :
  (exists report,
      Scores.extract example_detections (VInt 2) = Py.Ok report /\
      Scores.scores report = [4%Z] /\
      Scores.total report = 4%Z /\
      Scores.avg_confidence report == 0.9 /\
      Scores.holes_found report = 1%Z) /\
  map text (cleaned example_detections)
  = [Py.lit "4"; Py.lit "5"; Py.lit "par"] /\
  (exists report,
      Scores.extract (cleaned example_detections) (VInt 2) = Py.Ok report /\
      Scores.scores report = [4%Z; 5%Z] /\
      Scores.total report = 9%Z /\
      Scores.avg_confidence report == 0.8 /\
      Scores.holes_found report = 2%Z).
Proof.
  split; [|split; [reflexivity|]].
  - eexists. split; [vm_compute; reflexivity|]. repeat split; reflexivity.
  - eexists. split; [vm_compute; reflexivity|]. repeat split; reflexivity.
Qed.

(* ------------------------------------------------------------------ *)
(** ** The request handlers *)

Lemma lacks_without_image (request : request_json) :
  without_image request -> lacks request "image" = Py.Ok true.
Proof.
  destruct request as [| b | z | q | s | l | l | l | d];
    cbn [without_image]; intros H.
  - reflexivity.
  - now subst b.
  - now subst z.
  - unfold lacks. cbn [truthy].
    apply Qeq_bool_iff in H. now rewrite H.
  - unfold lacks. rewrite H. now destruct (negb (truthy (VStr s))).
  - now destruct l.
  - now destruct l.
  - unfold lacks. rewrite H. now destruct (negb (truthy (VList l))).
  - unfold lacks, has_key. rewrite H. now destruct (negb (truthy (VDict d))).
Qed.

(** C9 fails on the code: a body that is a non-zero number or [true] has
    no ["image"] field, but the membership test raises on it and both
    servers answer with status 500 and "OCR processing failed: ...", not
    with 400 and "Missing image data in request". *)
Theorem scalar_body_answers_500
        (image : Type) (env : Env image) (c : clock) :
  not_iterable_answer env (VInt 5) c /\
  not_iterable_answer env (VBool true) c /\
  not_iterable_answer env (VFloat 1.5) c.
Proof. repeat split. Qed.

(** X23: a [POST /ocr] whose body is null, false, zero, an object with no
    ["image"] key, an array with no element ["image"] or a string that does
    not contain ["image"] is answered, by both servers, with status 400,
    [success] false, the error message "Missing image data in request" and
    a [processing_time], and without a [detections] key. *)
Theorem missing_image_rejected
        (image : Type) (env : Env image)
        (request : request_json) (c : clock) :
  without_image request ->
  missing_image_response (fst (Enhanced.perform_ocr env request c)) /\
  missing_image_response (fst (Scores.perform_ocr env request c)).
Proof.
  intros H. apply lacks_without_image in H.
  unfold Enhanced.perform_ocr, Scores.perform_ocr,
    bind, try_except, time_time, ret, lift.
  rewrite H. cbn [fst].
  split; eexists; (split; [reflexivity|]); repeat split.
Qed.

Lemma missing_image_rejected_witness :
  missing_image_response
    (fst (Enhanced.perform_ocr (fixed_env [])
            (VDict [("expected_holes", VInt 9)]) 0%nat)) /\
  missing_image_response
    (fst (Scores.perform_ocr (fixed_env [])
            (VDict [("expected_holes", VInt 9)]) 0%nat)).
Proof.
  apply (@missing_image_rejected unit (fixed_env [])
           (VDict [("expected_holes", VInt 9)]) 0%nat).
  reflexivity.
Defined.

(** A body that is a non-zero number is not a container: the membership
    test raises and the request ends in the handler of [except], with
    status 500. *)
Lemma number_body_raises (image : Type) (env : Env image) (c : clock) :
  exists body,
    fst (Scores.perform_ocr env (VInt 5) c) = Py.Ok (WithStatus body 500) /\
    get body "success" = Some (VBool false).
Proof. eexists. split; reflexivity. Qed.

(** [/ocr] of the score server always answers, with a response object or a
    response and a status. *)
Lemma perform_ocr_answers
      (image : Type) (env : Env image) (request : request_json) (c : clock) :
  exists view c',
    Scores.perform_ocr env request c = (Py.Ok view, c') /\
    Scores.json_of view = Py.Ok (http_body view).
Proof.
  unfold Scores.perform_ocr, bind, try_except, time_time, ret, lift.
  destruct (lacks request "image") as [[|]|e]; try (now eexists; eexists).
  destruct (item request "image") as [v|e]; [|now eexists; eexists].
  destruct (load_image env v) as [i|e]; [|now eexists; eexists].
  destruct (readtext env i) as [r|e]; now eexists; eexists.
Qed.

(** X22: the score server does not rank: a successful [/ocr] lists the
    detections in the reader's order, with their text as read. *)
Lemma scores_ocr_keeps_reader_order
      (image : Type) (env : Env image) (request : request_json) (c : clock)
      (v : value) (i : image) (results : list RawDetection) :
  lacks request "image" = Py.Ok false ->
  item request "image" = Py.Ok v ->
  load_image env v = Py.Ok i ->
  readtext env i = Py.Ok results ->
  exists body,
    fst (Scores.perform_ocr env request c) = Py.Ok (Response body) /\
    get body "detections"
    = Some (VDetections (map (detection_of (fun text => text)) results)).
Proof.
  intros L I D R.
  unfold Scores.perform_ocr, bind, try_except, time_time, ret, lift.
  rewrite L, I, D, R. eexists. split; reflexivity.
Qed.

(** When the OCR step fails, [/extract_scores] returns the body of the
    [/ocr] response as a bare dict. *)
Lemma extract_scores_on_failure
      (image : Type) (env : Env image) (request : request_json)
      (c c' : clock) (view : view_result) :
  Scores.perform_ocr env request (S c) = (Py.Ok view, c') ->
  Scores.failed (http_body view) = true ->
  Scores.extract_scores env request c
  = (Py.Ok (BareDict (http_body view)), c').
Proof.
  intros H F.
  destruct (perform_ocr_answers env request (S c)) as [v [k [E J]]].
  rewrite H in E. injection E as <- <-.
  unfold Scores.extract_scores, bind, try_except, time_time, lift, ret.
  now rewrite H, J, F.
Qed.

(** C2 fails on the code: for a request without a JSON body [/ocr] answers
    with status 400, while [/extract_scores] returns the body of that answer
    (same keys, [success] false, same error message) as a bare dict, which
    goes out with status 200. *)
Theorem extract_scores_loses_status
        (image : Type) (env : Env image) (c : clock) :
  exists body body',
    fst (Scores.perform_ocr env VNone c) = Py.Ok (WithStatus body 400) /\
    fst (Scores.extract_scores env VNone c) = Py.Ok (BareDict body') /\
    http_status (BareDict body') = 200%Z /\
    map fst body' = map fst body /\
    get body' "success" = Some (VBool false) /\
    get body' "error" = get body "error".
Proof.
  eexists. eexists.
  split; [reflexivity|]. split; [reflexivity|]. repeat split.
Qed.

Lemma collect_raises (d : Detection) (e : Py.exn) (ds : list Detection) :
  Scores.candidate d = Py.Err e -> In d ds ->
  forall acc, exists e', Scores.collect acc ds = Py.Err e'.
Proof.
  intros Hd. induction ds as [|d' ds IH]; intros Hin acc; [contradiction|].
  cbn [Scores.collect].
  destruct (Scores.candidate d') as [[s|]|e'] eqn:E; cbn [rbind].
  - destruct Hin as [-> | Hin]; [congruence | now apply IH].
  - destruct Hin as [-> | Hin]; [congruence | now apply IH].
  - now exists e'.
Qed.

(** C10: the superscript two passes [isdigit] but [int] raises on it, so a
    detection with that text (here with confidence 0.9) makes the loop
    raise instead of being filtered out, whatever else was detected, and
    [/extract_scores] answers with status 500. *)
Theorem digit_text_int_raises :
  Py.isdigit (Py.strip (text superscript_two)) = true /\
  0.5 < confidence superscript_two /\
  Py.int (Py.strip (text superscript_two)) = Py.Err (Py.ValueError_int [0xb2%N]) /\
  Scores.candidate superscript_two = Py.Err (Py.ValueError_int [0xb2%N]) /\
  (forall ds v, In superscript_two ds ->
                exists e, Scores.extract ds v = Py.Err e) /\
  (forall (image : Type) (env : Env image) request c c' view ds,
      Scores.perform_ocr env request (S c) = (Py.Ok view, c') ->
      get (http_body view) "success" = Some (VBool true) ->
      get (http_body view) "detections" = Some (VDetections ds) ->
      In superscript_two ds ->
      exists e,
        fst (Scores.extract_scores env request c)
        = Py.Ok (WithStatus
                   [ ("success", VBool false);
                     ("error", VStr (Py.lit "Score extraction failed: "
                                     ++ str_exn env e));
                     ("processing_time", VFloat (wall env c' - wall env c)) ]
                   500)) /\
  fst (Scores.extract_scores (fixed_env [raw_superscript_two]) image_request
                             0%nat)
  = Py.Ok (WithStatus
             [ ("success", VBool false);
               ("error", VStr (Py.lit "Score extraction failed: "
                               ++ Py.lit "error"));
               ("processing_time", VFloat (inject_Z 3 - inject_Z 0)) ]
             500).
Proof.
  assert (Hds : forall ds v, In superscript_two ds ->
                             exists e, Scores.extract ds v = Py.Err e).
  { intros ds v Hin.
    destruct (@collect_raises superscript_two _ ds eq_refl Hin []) as [e He].
    exists e. now apply extract_err. }
  split; [reflexivity|]. split; [reflexivity|]. split; [reflexivity|].
  split; [reflexivity|]. split; [exact Hds|]. split; [|reflexivity].
  intros image env request c c' view ds H Hs Hd Hin.
  destruct (perform_ocr_answers env request (S c)) as [v [k [E J]]].
  rewrite H in E. injection E as <- <-.
  unfold Scores.extract_scores, bind, try_except, time_time, lift, ret.
  rewrite H, J. unfold Scores.failed, item. rewrite Hs, Hd. cbn [truthy negb].
  destruct (Scores.get_expected_holes request) as [v|e]; [|now exists e].
  cbn [Scores.iterate]. destruct (Hds ds v Hin) as [e ->]. now exists e.
Qed.

(* ------------------------------------------------------------------ *)
(** ** More on the text normalizer *)

Lemma join_cons_length (sep w : Py.str) (ws : list Py.str) :
  (List.length (Py.join sep (w :: ws))
   <= List.length w + List.length sep + List.length (Py.join sep ws))%nat.
Proof.
  destruct ws as [|w' ws]; cbn [Py.join].
  - simpl. lia.
  - rewrite !length_app. lia.
Qed.

Lemma join_split_from_length (s acc : Py.str) :
  (List.length (Py.join [32%N] (Py.split_from acc s))
   <= List.length acc + List.length s)%nat.
Proof.
  revert acc. induction s as [|c s IH]; intros acc; cbn [Py.split_from].
  - destruct acc; simpl; lia.
  - destruct (Py.isspace c).
    + specialize (IH []). destruct acc as [|a acc]; cbn [Py.flush app].
      * simpl in *. lia.
      * pose proof (join_cons_length [32%N] (a :: acc) (Py.split_from [] s)).
        simpl in *. lia.
    + specialize (IH (acc ++ [c])). rewrite length_app in IH. simpl in *. lia.
Qed.

Lemma correct_word_length (w : Py.str) :
  List.length (Enhanced.correct_word w) = List.length w.
Proof.
  rewrite correct_word_subst.
  destruct (List.length w <=? 3)%nat; [apply length_map | reflexivity].
Qed.

Lemma join_map_length (sep : Py.str) (f : Py.str -> Py.str)
      (ws : list Py.str) :
  (forall w, List.length (f w) = List.length w) ->
  List.length (Py.join sep (map f ws)) = List.length (Py.join sep ws).
Proof.
  intros Hf. induction ws as [|w ws IH]; [reflexivity|].
  destruct ws as [|w' ws]; cbn [map Py.join] in *; [apply Hf|].
  rewrite !length_app, Hf, IH. reflexivity.
Qed.

(** X1: cleaning never makes a text longer. *)
Theorem clean_golf_text_length (s : Py.str) :
  (List.length (Enhanced.clean_golf_text s) <= List.length s)%nat.
Proof.
  rewrite clean_golf_text_words, lit_blank.
  rewrite (join_map_length _ _ _ correct_word_length).
  apply (join_split_from_length s []).
Qed.

Lemma is_word_lstrip (w : Py.str) : is_word w -> Py.lstrip w = w.
Proof.
  intros [Hne Hw]. destruct w as [|c w]; [congruence|].
  simpl in *. apply andb_true_iff in Hw as [Hc _].
  apply negb_true_iff in Hc. now rewrite Hc.
Qed.

Lemma is_word_rev (w : Py.str) : is_word w -> is_word (rev w).
Proof.
  intros [Hne Hw]. split.
  - intros E. apply Hne. rewrite <- (rev_involutive w), E. reflexivity.
  - rewrite forallb_forall in *. intros c Hc. apply Hw. now apply in_rev.
Qed.

Lemma join_starts_with_word (ws : list Py.str) :
  Forall is_word ws ->
  Py.lstrip (Py.join [32%N] ws) = Py.join [32%N] ws.
Proof.
  intros H. destruct H as [|w ws [Hne Hw] Hws]; [reflexivity|].
  assert (E : exists c rest, Py.join [32%N] (w :: ws) = c :: rest
                             /\ Py.isspace c = false).
  { destruct w as [|c w]; [congruence|].
    simpl in Hw. apply andb_true_iff in Hw as [Hc _].
    apply negb_true_iff in Hc.
    destruct ws; cbn [Py.join app]; eauto. }
  destruct E as [c [rest [-> Hc]]]. simpl. now rewrite Hc.
Qed.

Lemma join_snoc (sep w : Py.str) (ws : list Py.str) :
  ws <> [] ->
  Py.join sep (ws ++ [w]) = Py.join sep ws ++ sep ++ w.
Proof.
  induction ws as [|w' ws IH]; [congruence|]. intros _.
  destruct ws as [|w'' ws]; [reflexivity|].
  change (Py.join sep ((w' :: w'' :: ws) ++ [w]))
    with (w' ++ sep ++ Py.join sep ((w'' :: ws) ++ [w])).
  rewrite IH by discriminate.
  change (Py.join sep (w' :: w'' :: ws))
    with (w' ++ sep ++ Py.join sep (w'' :: ws)).
  now rewrite <- !app_assoc.
Qed.

Lemma join_rev (ws : list Py.str) :
  rev (Py.join [32%N] ws) = Py.join [32%N] (map (@rev Py.char) (rev ws)).
Proof.
  induction ws as [|w ws IH]; [reflexivity|].
  destruct ws as [|w' ws]; [reflexivity|].
  change (Py.join [32%N] (w :: w' :: ws))
    with (w ++ [32%N] ++ Py.join [32%N] (w' :: ws)).
  rewrite !rev_app_distr.
  etransitivity;
    [apply (f_equal (fun l => (l ++ rev [32%N]) ++ rev w)); exact IH|].
  change (rev (w :: w' :: ws)) with (rev (w' :: ws) ++ [w]).
  rewrite map_app. cbn [map].
  rewrite join_snoc.
  - now rewrite <- app_assoc.
  - intros E. apply map_eq_nil in E.
    apply (f_equal (@rev Py.str)) in E. rewrite rev_involutive in E.
    discriminate.
Qed.

Lemma join_strip (ws : list Py.str) :
  Forall is_word ws ->
  Py.strip (Py.join [32%N] ws) = Py.join [32%N] ws.
Proof.
  intros H. unfold Py.strip, Py.rstrip.
  rewrite (join_starts_with_word H), join_rev, join_starts_with_word.
  - now rewrite <- join_rev, rev_involutive.
  - apply Forall_map, Forall_rev.
    eapply Forall_impl; [|exact H]. apply is_word_rev.
Qed.

Lemma cleaned_words (s : Py.str) :
  Forall is_word (map Enhanced.correct_word (Py.split s)).
Proof.
  apply Forall_map. eapply Forall_impl; [|apply split_words].
  intros w. apply correct_word_word.
Qed.

(** X2: the cleaned text is in normal form: it has as many tokens as the
    input, each the corrected input token; it is those tokens joined by
    single blanks; and it has no whitespace at either end. *)
Theorem clean_golf_text_normal_form (s : Py.str) :
  Py.split (Enhanced.clean_golf_text s)
  = map Enhanced.correct_word (Py.split s) /\
  List.length (Py.split (Enhanced.clean_golf_text s))
  = List.length (Py.split s) /\
  Enhanced.clean_golf_text s
  = Py.join (Py.lit " ") (Py.split (Enhanced.clean_golf_text s)) /\
  Py.strip (Enhanced.clean_golf_text s) = Enhanced.clean_golf_text s.
Proof.
  pose proof (cleaned_words s) as W.
  assert (E : Py.split (Enhanced.clean_golf_text s)
              = map Enhanced.correct_word (Py.split s)).
  { rewrite clean_golf_text_words. now apply split_join. }
  split; [exact E|]. split; [now rewrite E, length_map|].
  split.
  - rewrite E. apply clean_golf_text_words.
  - rewrite clean_golf_text_words, lit_blank. now apply join_strip.
Qed.

Lemma subst_not_key (c : Py.char) : Enhanced.in_corrections (subst c) = false.
Proof.
  unfold Enhanced.in_corrections, subst.
  destruct (Enhanced.lookup c Enhanced.corrections) as [d|] eqn:E;
    [|now rewrite E].
  rewrite corrections_table in E. simpl in E.
  repeat match type of E with
         | (if N.eqb ?a ?b then _ else _) = _ =>
             destruct (N.eqb a b);
             [injection E as <-; reflexivity|]
         end.
  discriminate.
Qed.

(** X3: in the cleaned text no token of at most three characters contains a
    character of the substitution table, and every input token of more than
    three characters is still there unchanged, at the same place. *)
Theorem clean_golf_text_tokens (s : Py.str) :
  Forall (fun w => (List.length w <= 3)%nat ->
                   existsb Enhanced.in_corrections w = false)
         (Py.split (Enhanced.clean_golf_text s)) /\
  Forall2 (fun w w' => List.length w' = List.length w /\
                       ((3 < List.length w)%nat -> w' = w))
          (Py.split s) (Py.split (Enhanced.clean_golf_text s)).
Proof.
  destruct (clean_golf_text_normal_form s) as [-> _]. split.
  - apply Forall_map, Forall_forall. intros w _.
    rewrite correct_word_length, correct_word_subst. intros H.
    apply Nat.leb_le in H. rewrite H.
    induction w as [|c w IH]; [reflexivity|]. simpl.
    rewrite subst_not_key. simpl. apply IH. simpl in H.
    apply Nat.leb_le. apply Nat.leb_le in H. simpl in H. lia.
  - induction (Py.split s) as [|w ws IH]; constructor; [|exact IH].
    split; [apply correct_word_length|]. intros H.
    rewrite correct_word_subst.
    apply Nat.leb_gt in H. now rewrite H.
Qed.

Lemma lstrip_decompose (s : Py.str) :
  exists sp, s = sp ++ Py.lstrip s /\ forallb Py.isspace sp = true.
Proof.
  induction s as [|c s [sp [E H]]]; [now exists []|].
  simpl. destruct (Py.isspace c) eqn:Hc.
  - exists (c :: sp). simpl. rewrite Hc, H. split; [now f_equal | reflexivity].
  - now exists [].
Qed.

Lemma forallb_rev (A : Type) (f : A -> bool) (l : list A) :
  forallb f l = true -> forallb f (rev l) = true.
Proof.
  rewrite !forallb_forall. intros H x Hx. apply H. now apply in_rev.
Qed.

Lemma strip_decompose (s : Py.str) :
  exists sp1 sp2,
    s = sp1 ++ Py.strip s ++ sp2 /\
    forallb Py.isspace sp1 = true /\ forallb Py.isspace sp2 = true.
Proof.
  destruct (lstrip_decompose s) as [sp1 [E1 H1]].
  destruct (lstrip_decompose (rev (Py.lstrip s))) as [sp [E2 H2]].
  exists sp1, (rev sp). split; [|split; [assumption | now apply forallb_rev]].
  unfold Py.strip, Py.rstrip. rewrite <- rev_app_distr, <- E2, rev_involutive.
  exact E1.
Qed.

Lemma split_from_leading (sp s : Py.str) :
  forallb Py.isspace sp = true ->
  Py.split_from [] (sp ++ s) = Py.split_from [] s.
Proof.
  induction sp as [|c sp IH]; [reflexivity|]. simpl.
  intros H. apply andb_true_iff in H as [Hc H]. rewrite Hc. now apply IH.
Qed.

Lemma split_from_trailing (w sp : Py.str) :
  w <> [] -> forallb Py.isspace sp = true -> Py.split_from w sp = [w].
Proof.
  intros Hw H. destruct sp as [|c sp]; simpl; [now apply flush_word|].
  simpl in H. apply andb_true_iff in H as [Hc H]. rewrite Hc.
  rewrite flush_word by assumption.
  change (Py.split_from [] sp) with (Py.split sp). now rewrite split_blank.
Qed.

Lemma split_single (s : Py.str) :
  is_word (Py.strip s) -> Py.split s = [Py.strip s].
Proof.
  intros [Hne Hw]. destruct (strip_decompose s) as [sp1 [sp2 [E [H1 H2]]]].
  unfold Py.split. rewrite E at 1.
  rewrite split_from_leading by assumption.
  rewrite split_from_word by assumption.
  now apply split_from_trailing.
Qed.

(** X4: on a text that is one token with whitespace around it, cleaning
    trims the text and corrects the token: the token is kept when it has
    more than three characters, and has its table characters substituted
    otherwise. *)
Theorem clean_golf_text_single_token (s : Py.str) :
  is_word (Py.strip s) ->
  Enhanced.clean_golf_text s
  = if (List.length (Py.strip s) <=? 3)%nat
    then map subst (Py.strip s)
    else Py.strip s.
Proof.
  intros H. rewrite clean_golf_text_words, (split_single s H).
  cbn [map Py.join]. apply correct_word_subst.
Qed.

Lemma clean_golf_text_single_token_witness :
  Enhanced.clean_golf_text (Py.lit "  lS ")
  = if (List.length (Py.strip (Py.lit "  lS ")) <=? 3)%nat
    then map subst (Py.strip (Py.lit "  lS "))
    else Py.strip (Py.lit "  lS ").
Proof.
  apply (clean_golf_text_single_token (Py.lit "  lS ")).
  split; [discriminate | reflexivity].
Defined.

Lemma decimal_in_block (c : Py.char) (bs : list (N * N)) (z : Z) :
  Py.decimal_in c bs = Some z ->
  exists lo n, In (lo, n) bs /\ (lo <= c < lo + n)%N.
Proof.
  induction bs as [|[lo n] bs IH]; [discriminate|]. simpl.
  destruct ((lo <=? c)%N && (c <? lo + n)%N) eqn:E.
  - intros _. exists lo, n. apply andb_true_iff in E as [E1 E2].
    apply N.leb_le in E1. apply N.ltb_lt in E2. split; [now left | lia].
  - intros H. destruct (IH H) as [lo' [n' [Hin Hr]]].
    exists lo', n'. split; [now right | assumption].
Qed.

Lemma in_ranges_range (c : Py.char) (rs : list (N * N)) :
  Py.in_ranges c rs = true ->
  exists lo hi, In (lo, hi) rs /\ (lo <= c <= hi)%N.
Proof.
  induction rs as [|[lo hi] rs IH]; [discriminate|]. simpl.
  intros H. apply orb_true_iff in H as [H | H].
  - exists lo, hi. apply andb_true_iff in H as [E1 E2].
    apply N.leb_le in E1, E2. split; [now left | lia].
  - destruct (IH H) as [lo' [hi' [Hin Hr]]].
    exists lo', hi'. split; [now right | assumption].
Qed.

(** No decimal digit is whitespace. *)
Lemma decimal_not_space (c : Py.char) :
  Py.isdecimal_char c = true -> Py.isspace c = false.
Proof.
  unfold Py.isdecimal_char, Py.decimal_value, Py.isspace. intros H.
  destruct (Py.decimal_in c Py.decimal_blocks) as [z|] eqn:E; [|discriminate].
  destruct (Py.in_ranges c Py.space_ranges) eqn:S; [|reflexivity].
  apply decimal_in_block in E as [lo [n [Hb Hc]]].
  apply in_ranges_range in S as [a [b [Hr Hc']]].
  assert (D : forallb (fun '(lo, n) =>
                forallb (fun '(a, b) => (b <? lo)%N || (lo + n <=? a)%N)
                        Py.space_ranges) Py.decimal_blocks = true)
    by (vm_compute; reflexivity).
  rewrite forallb_forall in D. specialize (D _ Hb). cbv beta iota in D.
  rewrite forallb_forall in D. specialize (D _ Hr). cbv beta iota in D.
  apply orb_true_iff in D as [D | D];
    [apply N.ltb_lt in D | apply N.leb_le in D]; lia.
Qed.

(** No decimal digit is a key of the substitution table. *)
Lemma decimal_not_key (c : Py.char) :
  Py.isdecimal_char c = true -> Enhanced.in_corrections c = false.
Proof.
  intros H. unfold Enhanced.in_corrections.
  rewrite corrections_table. simpl.
  repeat match goal with
         | |- context [N.eqb c ?k] =>
             destruct (N.eqb_spec c k);
             [subst; vm_compute in H; discriminate|]
         end.
  reflexivity.
Qed.

Lemma is_word_strip (w : Py.str) : is_word w -> Py.strip w = w.
Proof.
  intros H. unfold Py.strip, Py.rstrip.
  rewrite (is_word_lstrip H), (is_word_lstrip (is_word_rev H)).
  apply rev_involutive.
Qed.

(** X5: cleaning keeps every valid score: when a detection passes the
    filter of the score extractor, the cleaned text is the trimmed text, and
    the detection with its text cleaned passes the filter with the same
    score. *)
Theorem cleaning_keeps_scores (d : Detection) :
  is_score d = true ->
  text (clean_text_of d) = Py.strip (text d) /\
  is_score (clean_text_of d) = true /\
  Scores.candidate (clean_text_of d) = Scores.candidate d.
Proof.
  intros H.
  assert (Hd : all_decimal_digits (Py.strip (text d)) = true /\
               Py.strip (text d) <> []).
  { unfold is_score, parses_within in H. cbv zeta in H.
    apply andb_true_iff in H as [H _]. apply andb_true_iff in H as [Hd Hp].
    split; [assumption|].
    destruct (Py.int (Py.strip (text d))) eqn:E; [|discriminate].
    now apply int_ok_decimal in E. }
  destruct Hd as [Hd Hne]. unfold all_decimal_digits in Hd.
  assert (W : is_word (Py.strip (text d))).
  { split; [assumption|]. rewrite forallb_forall in *. intros c Hc.
    apply negb_true_iff, decimal_not_space. now apply Hd. }
  assert (K : existsb Enhanced.in_corrections (Py.strip (text d)) = false).
  { rewrite forallb_forall in Hd. clear -Hd.
    induction (Py.strip (text d)) as [|c w IH]; [reflexivity|]. simpl.
    rewrite decimal_not_key by (apply Hd; now left). simpl.
    apply IH. intros x Hx. apply Hd. now right. }
  assert (E : text (clean_text_of d) = Py.strip (text d)).
  { cbn [clean_text_of text]. rewrite (clean_golf_text_single_token _ W).
    rewrite (map_subst_fixed _ K).
    now destruct (List.length (Py.strip (text d)) <=? 3)%nat. }
  split; [exact E|].
  assert (C : Scores.candidate (clean_text_of d) = Scores.candidate d).
  { unfold Scores.candidate. cbv zeta. rewrite E, (is_word_strip W).
    reflexivity. }
  split; [|exact C].
  unfold is_score. cbv zeta. rewrite E, (is_word_strip W). exact H.
Qed.

Lemma cleaning_keeps_scores_witness :
  text (clean_text_of
          {| text := Py.lit " 07 "; confidence := 0.8;
             bbox := bbox superscript_two |})
  = Py.strip (Py.lit " 07 ") /\
  is_score (clean_text_of
              {| text := Py.lit " 07 "; confidence := 0.8;
                 bbox := bbox superscript_two |}) = true /\
  Scores.candidate
    (clean_text_of {| text := Py.lit " 07 "; confidence := 0.8;
                      bbox := bbox superscript_two |})
  = Scores.candidate {| text := Py.lit " 07 "; confidence := 0.8;
                        bbox := bbox superscript_two |}.
Proof.
  apply (cleaning_keeps_scores
           {| text := Py.lit " 07 "; confidence := 0.8;
              bbox := bbox superscript_two |}).
  reflexivity.
Defined.

(* ------------------------------------------------------------------ *)
(** ** More on sorting, ranking and reading order *)

Section SortMore.
Variables A K : Type.
Variable lt : K -> K -> bool.
Variable key : A -> K.

Hypothesis lt_asym : forall x y, lt x y = true -> lt y x = false.
Hypothesis nlt_trans :
  forall x y z, lt y x = false -> lt z y = false -> lt z x = false.

Local Abbreviation ascending := (PySort.ascending lt key).
Local Abbreviation sort := (PySort.sort lt key).
Local Abbreviation not_after := (fun a b => lt (key b) (key a) = false).
Local Abbreviation not_before := (fun a b => lt (key a) (key b) = false).

(** Sorting leaves a sorted list as it is. *)
Lemma ascending_id (l : list A) :
  StronglySorted not_after l -> ascending l = l.
Proof.
  induction 1 as [|a l Hl IH Ha]; [reflexivity|].
  cbn [PySort.ascending fold_right].
  change (fold_right (PySort.insert lt key) [] l) with (ascending l).
  rewrite IH. destruct l as [|b l]; [reflexivity|].
  inversion Ha as [|? ? Hb _]; subst. simpl. now rewrite Hb.
Qed.

Lemma sort_true_id (l : list A) :
  StronglySorted not_before l -> sort true l = l.
Proof.
  intros H. unfold PySort.sort.
  rewrite ascending_id; [apply rev_involutive|].
  apply (sorted_rev H).
Qed.

(** Two sorted arrangements of the same elements are the same list when
    different elements never tie. *)
Lemma sorted_perm_unique (l1 l2 : list A) :
  StronglySorted not_after l1 -> StronglySorted not_after l2 ->
  Permutation l1 l2 ->
  (forall x y, In x l1 -> In y l1 ->
               x = y \/ lt (key x) (key y) = true
               \/ lt (key y) (key x) = true) ->
  l1 = l2.
Proof.
  intros S1. revert l2.
  induction S1 as [|a l1 S1 IH Ha]; intros l2 S2 P T.
  - now apply Permutation_nil in P.
  - destruct l2 as [|b l2];
      [now apply Permutation_sym, Permutation_nil in P|].
    inversion S2 as [|? ? S2' Hb]; subst.
    assert (Hab : In b (a :: l1))
      by (apply (Permutation_in _ (Permutation_sym P)); now left).
    assert (Hba : In a (b :: l2))
      by (apply (Permutation_in _ P); now left).
    assert (E : a = b).
    { destruct (T a b (or_introl eq_refl) Hab) as [E | [L | L]];
        [exact E | |].
      - destruct Hba as [E | Hin]; [now symmetry|].
        rewrite Forall_forall in Hb. rewrite (Hb a Hin) in L. discriminate.
      - destruct Hab as [E | Hin]; [exact E|].
        rewrite Forall_forall in Ha. rewrite (Ha b Hin) in L. discriminate. }
    subst b. f_equal. apply IH; [assumption | |].
    + now apply Permutation_cons_inv in P.
    + intros x y Hx Hy. apply T; now right.
Qed.

Lemma sort_perm_invariant (l1 l2 : list A) :
  Permutation l1 l2 ->
  (forall x y, In x l1 -> In y l1 ->
               x = y \/ lt (key x) (key y) = true
               \/ lt (key y) (key x) = true) ->
  sort false l1 = sort false l2.
Proof.
  intros P T.
  pose proof (sort_perm lt key false l1) as P1.
  pose proof (sort_perm lt key false l2) as P2.
  apply sorted_perm_unique.
  - now apply sort_ascending.
  - now apply sort_ascending.
  - now rewrite P1, P2.
  - intros x y Hx Hy.
    apply T; eapply Permutation_in; try exact P1; assumption.
Qed.
End SortMore.

Lemma sorted_map (A B : Type) (f : A -> B) (R : B -> B -> Prop)
      (l : list A) :
  StronglySorted (fun a b => R (f a) (f b)) l -> StronglySorted R (map f l).
Proof.
  induction 1 as [|a l Hl IH Ha]; simpl; constructor; [assumption|].
  now apply Forall_map.
Qed.

(** X6: raw detections that already come in non-increasing order of
    confidence are returned in that order: ranking only converts them. *)
Theorem extract_text_with_confidence_ranked (results : list RawDetection) :
  ranked results ->
  Enhanced.extract_text_with_confidence results
  = map (detection_of Enhanced.clean_golf_text) results.
Proof.
  intros H. unfold Enhanced.extract_text_with_confidence.
  apply sort_true_id. apply sorted_map.
  eapply sorted_impl; [|exact H].
  intros a b Hab. apply Qltb_ge. exact Hab.
Qed.

Lemma extract_text_with_confidence_ranked_witness :
  Enhanced.extract_text_with_confidence [raw_superscript_two; raw_four]
  = map (detection_of Enhanced.clean_golf_text)
        [raw_superscript_two; raw_four].
Proof.
  apply (@extract_text_with_confidence_ranked
           [raw_superscript_two; raw_four]).
  repeat constructor; discriminate.
Defined.

(* ------------------------------------------------------------------ *)
(** ** More on the score extractor *)

(** The candidates of a detection list in reading order. *)
Local Abbreviation in_reading_order ds :=
  (PySort.sort pair_ltb Scores.position false
               (map as_candidate (filter is_score ds))).

(** A report is made of a slice of the candidates in reading order. *)
Lemma extract_inv (ds : list Detection) (v : value)
      (r : Scores.ScoreReport) :
  Scores.extract ds v = Py.Ok r ->
  exists taken,
    Scores.collect [] ds = Py.Ok (map as_candidate (filter is_score ds)) /\
    Scores.slice_to (in_reading_order ds) v = Py.Ok taken /\
    Scores.scores r = map score taken /\
    Scores.total r = Scores.sum (map score taken) /\
    Scores.avg_confidence r
    = match map score taken with
      | [] => 0.0
      | _ => Scores.mean (map score_confidence taken)
      end /\
    Scores.holes_found r = Z.of_nat (List.length (map score taken)) /\
    Scores.expected_holes r = v.
Proof.
  unfold Scores.extract. pose proof (collect_outcome ds) as O.
  destruct (Scores.collect [] ds) as [cs|e]; [|discriminate].
  subst cs. cbn [rbind].
  destruct (Scores.slice_to (in_reading_order ds) v) as [taken|e];
    [|discriminate].
  cbn [rbind]. intros H. injection H as <-. exists taken.
  repeat split; reflexivity.
Qed.

Lemma extract_of_slice (ds : list Detection) (v : value)
      (taken : list ScoreCandidate) :
  Scores.collect [] ds = Py.Ok (map as_candidate (filter is_score ds)) ->
  Scores.slice_to (in_reading_order ds) v = Py.Ok taken ->
  exists r, Scores.extract ds v = Py.Ok r /\
            Scores.scores r = map score taken.
Proof.
  intros C S. unfold Scores.extract. rewrite C. cbn [rbind].
  rewrite S. cbn [rbind]. eexists. split; reflexivity.
Qed.

Lemma slice_to_firstn (A : Type) (l taken : list A) (v : value) :
  Scores.slice_to l v = Py.Ok taken -> exists n, taken = firstn n l.
Proof.
  unfold Scores.slice_to.
  destruct v as [| b | z | | | | | |]; try discriminate;
    intros H; injection H as <-.
  - exists (List.length l). now rewrite firstn_all.
  - destruct (0 <=? (if b then 1 else 0))%Z; eauto.
  - destruct (0 <=? z)%Z; eauto.
Qed.

Lemma firstn_incl (A : Type) (n : nat) (l : list A) (x : A) :
  In x (firstn n l) -> In x l.
Proof.
  intros H. rewrite <- (firstn_skipn n l). apply in_or_app. now left.
Qed.

Lemma taken_valid (ds : list Detection) (v : value)
      (taken : list ScoreCandidate) :
  Scores.slice_to (in_reading_order ds) v = Py.Ok taken ->
  Forall (fun s => exists d, In d ds /\ is_score d = true
                             /\ s = as_candidate d) taken.
Proof.
  intros H. apply slice_to_firstn in H as [n ->].
  apply Forall_forall. intros s Hs. apply firstn_incl in Hs.
  apply (Permutation_in _ (sort_perm _ _ _ _)) in Hs.
  apply in_map_iff in Hs as [d [<- Hd]].
  apply filter_In in Hd as [Hin Hd]. now exists d.
Qed.

Lemma is_score_range (d : Detection) :
  is_score d = true ->
  (1 <= score (as_candidate d) <= 12)%Z /\ 0.5 < confidence d.
Proof.
  unfold is_score, parses_within, as_candidate. cbv zeta. intros H.
  apply andb_true_iff in H as [H Hc]. apply andb_true_iff in H as [_ Hp].
  apply Qltb_lt in Hc. cbn [score].
  destruct (Py.int (Py.strip (text d))) as [n|e]; [|discriminate].
  apply andb_true_iff in Hp as [H1 H2].
  apply Z.leb_le in H1, H2. split; [lia | assumption].
Qed.

Lemma Zsum_bounds (l : list Z) :
  Forall (fun z => (1 <= z <= 12)%Z) l ->
  (Z.of_nat (List.length l) <= Zsum l <= 12 * Z.of_nat (List.length l))%Z.
Proof.
  induction 1 as [|z l Hz Hl IH]; [simpl; lia|].
  cbn [List.length Zsum fold_right]. unfold Zsum in IH. lia.
Qed.

(** X7: whatever [expected_holes] is, every score of a report is between 1
    and 12, so [total] is between [holes_found] and twelve times
    [holes_found]. *)
Theorem extract_scores_in_range
        (ds : list Detection) (v : value) (r : Scores.ScoreReport) :
  Scores.extract ds v = Py.Ok r ->
  Forall (fun z => (1 <= z <= 12)%Z) (Scores.scores r) /\
  (Scores.holes_found r <= Scores.total r <= 12 * Scores.holes_found r)%Z.
Proof.
  intros H.
  destruct (extract_inv ds v H) as [taken [_ [S [Es [Et [_ [Eh _]]]]]]].
  assert (F : Forall (fun z => (1 <= z <= 12)%Z) (Scores.scores r)).
  { rewrite Es. apply Forall_map.
    eapply Forall_impl; [|apply (taken_valid ds v S)].
    intros s [d [_ [Hd ->]]]. now apply is_score_range. }
  split; [exact F|].
  rewrite Et, Eh, sum_Zsum, <- Es. now apply Zsum_bounds.
Qed.

Lemma extract_scores_in_range_witness :
  exists r,
    Scores.extract example_detections (VInt 2) = Py.Ok r /\
    Forall (fun z => (1 <= z <= 12)%Z) (Scores.scores r) /\
    (Scores.holes_found r <= Scores.total r <= 12 * Scores.holes_found r)%Z.
Proof.
  eexists. split; [reflexivity|].
  apply (@extract_scores_in_range example_detections (VInt 2)).
  reflexivity.
Defined.

Lemma Qsum_above (t : Q) (l : list Q) :
  Forall (fun q => t < q) l ->
  t * inject_Z (Z.of_nat (List.length l)) <= Qsum l /\
  (l <> [] -> t * inject_Z (Z.of_nat (List.length l)) < Qsum l).
Proof.
  induction 1 as [|q l Hq Hl [IH _]].
  - split; [|congruence]. simpl. rewrite Qmult_0_r. apply Qle_refl.
  - assert (E : t * inject_Z (Z.of_nat (List.length (q :: l)))
                == t + t * inject_Z (Z.of_nat (List.length l))).
    { cbn [List.length]. rewrite Nat2Z.inj_succ. unfold Z.succ.
      rewrite inject_Z_plus. change (inject_Z 1) with 1. ring. }
    assert (L : t * inject_Z (Z.of_nat (List.length (q :: l)))
                < Qsum (q :: l)).
    { rewrite E. cbn [Qsum fold_right]. now apply Qplus_lt_le_compat. }
    split; [now apply Qlt_le_weak | intros _; exact L].
Qed.

(** X8: whatever [expected_holes] is, a report with at least one score has a
    confidence above the acceptance threshold 0.5, and a report without
    scores has confidence 0. *)
Theorem extract_confidence_above_threshold
        (ds : list Detection) (v : value) (r : Scores.ScoreReport) :
  Scores.extract ds v = Py.Ok r ->
  (Scores.scores r <> [] -> 0.5 < Scores.avg_confidence r) /\
  (Scores.scores r = [] -> Scores.avg_confidence r == 0).
Proof.
  intros H.
  destruct (extract_inv ds v H) as [taken [_ [S [Es [_ [Ea _]]]]]].
  rewrite Ea, Es. split.
  - intros Hne. destruct taken as [|s taken]; [now elim Hne|].
    cbn [map]. rewrite mean_Qsum.
    change (score_confidence s :: map score_confidence taken)
      with (map score_confidence (s :: taken)).
    apply Qlt_shift_div_l.
    + rewrite <- (Zlt_Qlt 0). rewrite length_map. simpl. lia.
    + apply Qsum_above; [|discriminate].
      apply Forall_map.
      eapply Forall_impl; [|apply (taken_valid ds v S)].
      intros c [d [_ [Hd ->]]]. now apply is_score_range.
  - intros ->. reflexivity.
Qed.

Lemma extract_confidence_above_threshold_witness :
  exists r,
    Scores.extract example_detections (VInt 2) = Py.Ok r /\
    (Scores.scores r <> [] -> 0.5 < Scores.avg_confidence r) /\
    (Scores.scores r = [] -> Scores.avg_confidence r == 0).
Proof.
  eexists. split; [reflexivity|].
  apply (@extract_confidence_above_threshold example_detections (VInt 2)).
  reflexivity.
Defined.

Lemma collect_total (ds : list Detection) (cs : list ScoreCandidate) :
  Scores.collect [] ds = Py.Ok cs ->
  Scores.collect [] ds = Py.Ok (map as_candidate (filter is_score ds)).
Proof. intros H. now rewrite <- (collect_ok ds H). Qed.

(** X9: with [expected_holes] null nothing is cut off: when the loop
    finishes, the report lists the score of every candidate, and
    [holes_found] is the number of detections that passed the filter. *)
Theorem extract_null_reports_all
        (ds : list Detection) (cs : list ScoreCandidate) :
  Scores.collect [] ds = Py.Ok cs ->
  exists r,
    Scores.extract ds VNone = Py.Ok r /\
    Permutation (Scores.scores r) (map score cs) /\
    Scores.holes_found r
    = Z.of_nat (List.length (filter is_score ds)).
Proof.
  intros C. pose proof (collect_ok ds C) as E. apply collect_total in C.
  destruct (@extract_of_slice ds VNone (in_reading_order ds) C eq_refl)
    as [r [Hr Hs]].
  exists r. split; [exact Hr|].
  destruct (extract_inv ds VNone Hr) as [taken [_ [S [_ [_ [_ [Eh _]]]]]]].
  injection S as <-. split.
  - rewrite Hs, E. apply Permutation_map, sort_perm.
  - rewrite Eh, !length_map. f_equal.
    etransitivity; [|apply (length_map as_candidate)].
    apply Permutation_length, (sort_perm pair_ltb Scores.position false).
Qed.

Lemma extract_null_reports_all_witness :
  exists r,
    Scores.extract (cleaned example_detections) VNone = Py.Ok r /\
    Permutation (Scores.scores r)
                (map score (map as_candidate
                              (filter is_score (cleaned example_detections))))
    /\ Scores.holes_found r
       = Z.of_nat (List.length (filter is_score (cleaned example_detections))).
Proof.
  apply (@extract_null_reports_all (cleaned example_detections)
           (map as_candidate (filter is_score (cleaned example_detections)))).
  reflexivity.
Defined.

(** X10: an integer [expected_holes] cuts the full list of scores (the one
    reported for null) like a Python slice: a non-negative [z] keeps its
    first [z] scores, a negative [z] drops its last [-z] scores. *)
Theorem extract_integer_slices
        (ds : list Detection) (full : Scores.ScoreReport) (z : Z) :
  Scores.extract ds VNone = Py.Ok full ->
  exists r,
    Scores.extract ds (VInt z) = Py.Ok r /\
    Scores.scores r
    = if (0 <=? z)%Z
      then firstn (Z.to_nat z) (Scores.scores full)
      else firstn (List.length (Scores.scores full) - Z.to_nat (- z))
                  (Scores.scores full).
Proof.
  intros H.
  destruct (extract_inv ds VNone H) as [taken [C [S [Es _]]]].
  injection S as <-.
  destruct (@extract_of_slice ds (VInt z) _ C eq_refl) as [r [Hr Hs]].
  exists r. split; [exact Hr|].
  rewrite Hs, Es, length_map.
  destruct (0 <=? z)%Z; now rewrite firstn_map.
Qed.

Lemma extract_integer_slices_witness :
  exists r,
    Scores.extract (cleaned example_detections) (VInt (-1)) = Py.Ok r /\
    Scores.scores r
    = if (0 <=? -1)%Z
      then firstn (Z.to_nat (-1)) [4%Z; 5%Z]
      else firstn (List.length [4%Z; 5%Z] - Z.to_nat (- -1)) [4%Z; 5%Z].
Proof.
  exact (@extract_integer_slices (cleaned example_detections)
           {| Scores.scores := [4%Z; 5%Z];
              Scores.total := 9;
              Scores.avg_confidence := (0 + 0.9 + 0.7) / inject_Z 2;
              Scores.holes_found := 2;
              Scores.expected_holes := VNone |}
           (-1)%Z eq_refl).
Defined.

(** X11: raising [expected_holes] only appends scores: for
    [0 <= h <= h'] the scores reported for [h] are the first [h] of those
    reported for [h']. *)
Theorem extract_prefix
        (ds : list Detection) (h h' : Z) (r' : Scores.ScoreReport) :
  (0 <= h <= h')%Z ->
  Scores.extract ds (VInt h') = Py.Ok r' ->
  exists r,
    Scores.extract ds (VInt h) = Py.Ok r /\
    Scores.scores r = firstn (Z.to_nat h) (Scores.scores r').
Proof.
  intros Hh H.
  destruct (extract_inv ds (VInt h') H) as [taken [C [S [Es _]]]].
  destruct (@extract_of_slice ds (VInt h) _ C eq_refl) as [r [Hr Hs]].
  exists r. split; [exact Hr|].
  rewrite Hs, Es. unfold Scores.slice_to in S. injection S as <-.
  replace (0 <=? h)%Z with true by (symmetry; apply Z.leb_le; lia).
  replace (0 <=? h')%Z with true by (symmetry; apply Z.leb_le; lia).
  rewrite <- firstn_map, <- (firstn_map score (Z.to_nat h')).
  rewrite firstn_firstn. f_equal. lia.
Qed.

Lemma extract_prefix_witness :
  exists r,
    Scores.extract (cleaned example_detections) (VInt 1) = Py.Ok r /\
    Scores.scores r = firstn (Z.to_nat 1) [4%Z; 5%Z].
Proof.
  refine (@extract_prefix (cleaned example_detections) 1 2
            {| Scores.scores := [4%Z; 5%Z];
               Scores.total := 9;
               Scores.avg_confidence := (0 + 0.9 + 0.7) / inject_Z 2;
               Scores.holes_found := 2;
               Scores.expected_holes := VInt 2 |}
            _ eq_refl).
  split; discriminate.
Defined.

(** X12: an [expected_holes] that is neither null nor an integer nor a
    boolean (a float, a string, an array, an object) makes the slice raise
    a TypeError once the loop has finished. *)
Theorem extract_rejects_non_index
        (ds : list Detection) (cs : list ScoreCandidate) (v : value) :
  not_an_index v ->
  Scores.collect [] ds = Py.Ok cs ->
  Scores.extract ds v
  = Py.Err (Py.TypeError
      "slice indices must be integers or None or have an __index__ method").
Proof.
  intros Hv C. unfold Scores.extract. rewrite C. cbn [rbind].
  destruct v; try contradiction; reflexivity.
Qed.

Lemma extract_rejects_non_index_witness :
  Scores.extract example_detections (VStr (Py.lit "9"))
  = Py.Err (Py.TypeError
      "slice indices must be integers or None or have an __index__ method").
Proof.
  apply (@extract_rejects_non_index example_detections
           (map as_candidate (filter is_score example_detections))
           (VStr (Py.lit "9"))).
  - exact I.
  - reflexivity.
Defined.

Lemma filter_permutation (A : Type) (f : A -> bool) (l l' : list A) :
  Permutation l l' -> Permutation (filter f l) (filter f l').
Proof.
  induction 1 as [| x l l' _ IH | x y l | l l' l'' _ IH1 _ IH2]; simpl.
  - constructor.
  - destruct (f x); [now constructor | assumption].
  - destruct (f x), (f y); try reflexivity. apply perm_swap.
  - now transitivity (filter f l').
Qed.

(** The loop finishes exactly when [int] raises on none of the
    detections. *)
Lemma collect_finishes (ds : list Detection) :
  (exists cs, Scores.collect [] ds = Py.Ok cs) <->
  Forall (fun d => exists c, Scores.candidate d = Py.Ok c) ds.
Proof.
  induction ds as [|d ds IH];
    [split; [intros _; constructor | intros _; now exists []]|].
  cbn [Scores.collect]. split.
  - intros [cs H]. destruct (Scores.candidate d) as [c|e] eqn:E;
      [|discriminate].
    constructor; [eauto|]. apply IH. cbn [rbind] in H.
    destruct c as [s|]; [|eauto].
    rewrite collect_acc in H.
    destruct (Scores.collect [] ds); [eauto | discriminate].
  - intros H. inversion H as [|? ? [c Hc] Hds]; subst.
    apply IH in Hds as [cs Hcs]. rewrite Hc. cbn [rbind].
    destruct c as [s|]; [|eauto].
    rewrite collect_acc, Hcs. eauto.
Qed.

Lemma position_tie (a b : ScoreCandidate) :
  pair_ltb (Scores.position a) (Scores.position b) = false ->
  pair_ltb (Scores.position b) (Scores.position a) = false ->
  bbox_y (score_bbox a) == bbox_y (score_bbox b) /\
  bbox_x (score_bbox a) == bbox_x (score_bbox b).
Proof.
  rewrite !pair_ltb_ge. cbn [Scores.position fst snd].
  intros [H1 | [H1 H1']] [H2 | [H2 H2']].
  - exfalso. apply (Qlt_irrefl (bbox_y (score_bbox a))).
    now apply Qlt_trans with (bbox_y (score_bbox b)).
  - exfalso. rewrite H2 in H1. exact (Qlt_irrefl _ H1).
  - exfalso. rewrite H1 in H2. exact (Qlt_irrefl _ H2).
  - split; [assumption | now apply Qle_antisym].
Qed.

(** X13: when any two different valid detections sit at different
    positions, the report does not depend on the order in which the
    detections arrive. *)
Theorem extract_order_independent
        (ds ds' : list Detection) (v : value) (r : Scores.ScoreReport) :
  Permutation ds ds' ->
  distinct_positions ds ->
  Scores.extract ds v = Py.Ok r ->
  Scores.extract ds' v = Py.Ok r.
Proof.
  intros P D H.
  destruct (extract_inv ds v H) as [taken [C _]].
  assert (C' : Scores.collect [] ds'
               = Py.Ok (map as_candidate (filter is_score ds'))).
  { assert (F : exists cs, Scores.collect [] ds' = Py.Ok cs).
    { apply collect_finishes. apply (Permutation_Forall P).
      apply collect_finishes. eauto. }
    destruct F as [cs F]. exact (collect_total ds' F). }
  assert (S : in_reading_order ds = in_reading_order ds').
  { apply sort_perm_invariant.
    - apply pair_ltb_asym.
    - apply pair_ltb_nlt_trans.
    - apply Permutation_map. now apply filter_permutation.
    - intros x y Hx Hy.
      apply in_map_iff in Hx as [a [<- Ha]].
      apply in_map_iff in Hy as [b [<- Hb]].
      apply filter_In in Ha as [Ha Sa]. apply filter_In in Hb as [Hb Sb].
      destruct (D a b Ha Hb Sa Sb) as [-> | N]; [now left | right].
      destruct (pair_ltb (Scores.position (as_candidate a))
                         (Scores.position (as_candidate b))) eqn:L1;
        [now left|].
      destruct (pair_ltb (Scores.position (as_candidate b))
                         (Scores.position (as_candidate a))) eqn:L2;
        [now right|].
      elim N. exact (position_tie _ _ L1 L2). }
  rewrite <- H. unfold Scores.extract. rewrite C, C'. cbn [rbind].
  now rewrite S.
Qed.

Lemma extract_order_independent_witness :
  Scores.extract (rev (cleaned example_detections)) (VInt 2)
  = Py.Ok {| Scores.scores := [4%Z; 5%Z];
             Scores.total := 9;
             Scores.avg_confidence := (0 + 0.9 + 0.7) / inject_Z 2;
             Scores.holes_found := 2;
             Scores.expected_holes := VInt 2 |}.
Proof.
  apply (@extract_order_independent
           (cleaned example_detections) (rev (cleaned example_detections))).
  - apply Permutation_rev.
  - intros a b Ha Hb _ _. simpl in Ha, Hb.
    destruct Ha as [<- | [<- | [<- | []]]];
      destruct Hb as [<- | [<- | [<- | []]]];
      solve [ now left
            | right; intros [H1 H2]; vm_compute in H1, H2; discriminate ].
  - reflexivity.
Defined.

(* ------------------------------------------------------------------ *)
(** ** More on the request handlers *)

Ltac run_handlers :=
  unfold Scores.extract_scores;
  unfold Enhanced.perform_ocr, Scores.perform_ocr,
    bind, try_except, time_time, ret, lift.

Lemma loaded_raises (image : Type) (env : Env image)
      (request : request_json) (e : Py.exn) :
  loaded env request = Py.Err e ->
  item request "image" = Py.Err e \/
  exists v, item request "image" = Py.Ok v /\ load_image env v = Py.Err e.
Proof.
  unfold loaded. destruct (item request "image") as [v|e']; cbn [rbind].
  - intros H. right. now exists v.
  - intros H. left. now injection H as ->.
Qed.

(** X14: a request whose image cannot be loaded (the field does not decode
    to an image) is answered with status 400 and "Invalid image data: ..."
    by the enhanced server, and with status 500 and "OCR processing
    failed: ..." by the score server. *)
Theorem invalid_image_answers
        (image : Type) (env : Env image)
        (request : request_json) (c : clock) (e : Py.exn) :
  lacks request "image" = Py.Ok false ->
  loaded env request = Py.Err e ->
  Enhanced.perform_ocr env request c
  = (Py.Ok (WithStatus
              (failure_body (Py.lit "Invalid image data: " ++ str_exn env e)
                            (wall env (S c) - wall env c))
              400),
     S (S c)) /\
  Scores.perform_ocr env request c
  = (Py.Ok (WithStatus
              (failure_body (Py.lit "OCR processing failed: "
                             ++ str_exn env e)
                            (wall env (S c) - wall env c))
              500),
     S (S c)).
Proof.
  intros L H. run_handlers. rewrite L.
  destruct (loaded_raises env request H) as [-> | [v [-> ->]]];
    split; reflexivity.
Qed.

Lemma invalid_image_answers_witness :
  Enhanced.perform_ocr failing_loader image_request 0%nat
  = (Py.Ok (WithStatus
              (failure_body
                 (Py.lit "Invalid image data: "
                  ++ str_exn failing_loader
                       (Py.Raised (Py.lit "cannot identify image file")))
                 (wall failing_loader 1%nat - wall failing_loader 0%nat))
              400),
     2%nat) /\
  Scores.perform_ocr failing_loader image_request 0%nat
  = (Py.Ok (WithStatus
              (failure_body
                 (Py.lit "OCR processing failed: "
                  ++ str_exn failing_loader
                       (Py.Raised (Py.lit "cannot identify image file")))
                 (wall failing_loader 1%nat - wall failing_loader 0%nat))
              500),
     2%nat).
Proof.
  apply (@invalid_image_answers unit failing_loader image_request 0%nat);
    reflexivity.
Defined.

(** X15: in the enhanced server a failure after the image was loaded, in
    preprocessing or in the reader, is answered with status 500 and "OCR
    processing failed: ...". *)
Theorem recognition_failure_answer
        (image : Type) (env : Env image)
        (request : request_json) (c : clock) (img : image) (e : Py.exn) :
  lacks request "image" = Py.Ok false ->
  loaded env request = Py.Ok img ->
  recognized env img = Py.Err e ->
  Enhanced.perform_ocr env request c
  = (Py.Ok (WithStatus
              (failure_body (Py.lit "OCR processing failed: "
                             ++ str_exn env e)
                            (wall env (S c) - wall env c))
              500),
     S (S c)).
Proof.
  intros L H R. run_handlers. rewrite L.
  unfold loaded in H. destruct (item request "image") as [v|e'];
    [|discriminate].
  cbn [rbind] in H. rewrite H.
  unfold recognized in R.
  destruct (Enhanced.preprocess_image env img) as [p|e'']; cbn [rbind] in R.
  - now rewrite R.
  - now injection R as ->.
Qed.

Lemma recognition_failure_answer_witness :
  Enhanced.perform_ocr failing_reader image_request 0%nat
  = (Py.Ok (WithStatus
              (failure_body
                 (Py.lit "OCR processing failed: "
                  ++ str_exn failing_reader
                       (Py.Raised (Py.lit "out of memory")))
                 (wall failing_reader 1%nat - wall failing_reader 0%nat))
              500),
     2%nat).
Proof.
  apply (@recognition_failure_answer unit failing_reader image_request
           0%nat tt);
    reflexivity.
Defined.

(** X16: [/ocr] never lets an exception escape, in either server: it reads
    the clock twice and answers either with status 200, [success] true and
    the detections, or with status 400 or 500, [success] false, an error
    message and no detections. *)
Theorem ocr_always_answers
        (image : Type) (env : Env image) (request : request_json)
        (c : clock) :
  (exists view, Enhanced.perform_ocr env request c = (Py.Ok view, S (S c))
                /\ ocr_answer view) /\
  (exists view, Scores.perform_ocr env request c = (Py.Ok view, S (S c))
                /\ ocr_answer view).
Proof.
  assert (OK : forall body,
             get body "success" = Some (VBool true) ->
             (exists ds, get body "detections" = Some (VDetections ds)) ->
             ocr_answer (Response body)).
  { intros body H1 H2. left. now repeat split. }
  assert (KO : forall m t s,
             s = 400%Z \/ s = 500%Z ->
             ocr_answer (WithStatus (failure_body m t) s)).
  { intros m t s Hs. right. repeat split; [exact Hs|]. now exists m. }
  run_handlers. split.
  - destruct (lacks request "image") as [[|]|e];
      try (eexists; split; [reflexivity | apply KO; auto]).
    destruct (item request "image") as [v|e];
      try (eexists; split; [reflexivity | apply KO; auto]).
    destruct (load_image env v) as [i|e];
      try (eexists; split; [reflexivity | apply KO; auto]).
    destruct (Enhanced.preprocess_image env i) as [p|e];
      try (eexists; split; [reflexivity | apply KO; auto]).
    destruct (readtext env p) as [r|e];
      try (eexists; split; [reflexivity | apply KO; auto]).
    eexists; split; [reflexivity | apply OK; [|eexists]; reflexivity].
  - destruct (lacks request "image") as [[|]|e];
      try (eexists; split; [reflexivity | apply KO; auto]).
    destruct (item request "image") as [v|e];
      try (eexists; split; [reflexivity | apply KO; auto]).
    destruct (load_image env v) as [i|e];
      try (eexists; split; [reflexivity | apply KO; auto]).
    destruct (readtext env i) as [r|e];
      try (eexists; split; [reflexivity | apply KO; auto]).
    eexists; split; [reflexivity | apply OK; [|eexists]; reflexivity].
Qed.

(** X17: [/extract_scores] never lets an exception escape and never answers
    with status 400: the status is 200 or 500, and a 500 always comes from
    its own handler ("Score extraction failed: ..."), never from a failure
    of the OCR step. *)
Theorem extract_scores_always_answers
        (image : Type) (env : Env image) (request : request_json)
        (c : clock) :
  exists view c',
    Scores.extract_scores env request c = (Py.Ok view, c') /\
    (http_status view = 200%Z \/ http_status view = 500%Z) /\
    (http_status view = 500%Z ->
     exists e t,
       http_body view
       = failure_body (Py.lit "Score extraction failed: " ++ str_exn env e)
                      t).
Proof.
  destruct (perform_ocr_answers env request (S c)) as [v [k [E J]]].
  unfold Scores.extract_scores, bind, try_except, time_time, lift, ret.
  rewrite E, J.
  destruct (Scores.failed (http_body v)).
  { eexists; eexists. split; [reflexivity|]. split; [now left|].
    discriminate. }
  destruct (item (VDict (http_body v)) "detections") as [f|e];
    [|eexists; eexists; split; [reflexivity|]; split; [now right|];
      intros _; eexists; eexists; reflexivity].
  destruct (Scores.get_expected_holes request) as [h|e];
    [|eexists; eexists; split; [reflexivity|]; split; [now right|];
      intros _; eexists; eexists; reflexivity].
  destruct (Scores.iterate f) as [ds|e];
    [|eexists; eexists; split; [reflexivity|]; split; [now right|];
      intros _; eexists; eexists; reflexivity].
  destruct (Scores.extract ds h) as [r|e];
    [|eexists; eexists; split; [reflexivity|]; split; [now right|];
      intros _; eexists; eexists; reflexivity].
  eexists; eexists. split; [reflexivity|]. split; [now left|]. discriminate.
Qed.

(** X18: how the handlers compose: when the request carries an image that
    loads, the reader returns [results], and the extractor produces a
    report from them (taken in the reader's order, with their text as
    read), [/extract_scores] answers with status 200 and that report,
    having read the clock four times. *)
Theorem extract_scores_success
        (image : Type) (env : Env image) (request : request_json)
        (c : clock) (img : image) (results : list RawDetection)
        (holes : value) (report : Scores.ScoreReport) :
  lacks request "image" = Py.Ok false ->
  loaded env request = Py.Ok img ->
  readtext env img = Py.Ok results ->
  Scores.get_expected_holes request = Py.Ok holes ->
  Scores.extract (map (detection_of (fun text => text)) results) holes
  = Py.Ok report ->
  Scores.extract_scores env request c
  = (Py.Ok (Response
              (scores_body report (wall env (S (S (S c))) - wall env c))),
     S (S (S (S c)))).
Proof.
  intros L H R G X. run_handlers. rewrite L.
  unfold loaded in H. destruct (item request "image") as [v|e];
    [|discriminate].
  cbn [rbind] in H. rewrite H, R.
  cbn [Scores.json_of Scores.failed get String.eqb Ascii.eqb Bool.eqb
       truthy negb item Scores.iterate].
  simpl. rewrite G. cbn [Scores.iterate]. now rewrite X.
Qed.

Lemma extract_scores_success_witness :
  Scores.extract_scores (fixed_env [raw_four]) image_request 0%nat
  = (Py.Ok (Response
              (scores_body
                 {| Scores.scores := [4%Z];
                    Scores.total := 4;
                    Scores.avg_confidence := (0 + 0.6) / inject_Z 1;
                    Scores.holes_found := 1;
                    Scores.expected_holes := VInt 18 |}
                 (wall (fixed_env [raw_four]) 3%nat
                  - wall (fixed_env [raw_four]) 0%nat))),
     4%nat).
Proof.
  apply (@extract_scores_success unit (fixed_env [raw_four]) image_request
           0%nat tt [raw_four] (VInt 18));
    reflexivity.
Defined.

(** A successful [/extract_scores] response carries a report of the
    extractor. *)
Lemma extract_scores_success_inv
      (image : Type) (env : Env image) (request : request_json)
      (c c' : clock) (view : view_result) :
  Scores.extract_scores env request c = (Py.Ok view, c') ->
  get (http_body view) "success" = Some (VBool true) ->
  exists ds holes report t,
    Scores.get_expected_holes request = Py.Ok holes /\
    Scores.extract ds holes = Py.Ok report /\
    http_body view = scores_body report t.
Proof.
  destruct (perform_ocr_answers env request (S c)) as [v [k [E J]]].
  unfold Scores.extract_scores, bind, try_except, time_time, lift, ret.
  rewrite E, J.
  destruct (Scores.failed (http_body v)) eqn:F.
  { intros H Hs. injection H as <- <-. cbn [http_body] in Hs.
    unfold Scores.failed in F. rewrite Hs in F. discriminate. }
  destruct (item (VDict (http_body v)) "detections") as [f|e];
    [|intros H Hs; injection H as <- <-; discriminate].
  destruct (Scores.get_expected_holes request) as [h|e];
    [|intros H Hs; injection H as <- <-; discriminate].
  destruct (Scores.iterate f) as [ds|e];
    [|intros H Hs; injection H as <- <-; discriminate].
  destruct (Scores.extract ds h) as [r|e] eqn:X;
    [|intros H Hs; injection H as <- <-; discriminate].
  intros H _. injection H as <- <-.
  exists ds, h, r. eexists. repeat split. exact X.
Qed.

Lemma slice_to_length (A : Type) (l taken : list A) (z : Z) :
  (0 <= z)%Z ->
  Scores.slice_to l (VInt z) = Py.Ok taken ->
  (List.length taken <= Z.to_nat z)%nat.
Proof.
  intros Hz. unfold Scores.slice_to.
  apply Z.leb_le in Hz. rewrite Hz. intros H. injection H as <-.
  apply firstn_le_length.
Qed.

(** X19: when the request names no [expected_holes], a successful response
    says [expected_holes] is 18 and lists at most 18 scores. *)
Theorem default_expected_holes
        (image : Type) (env : Env image) (d : dict)
        (c c' : clock) (view : view_result) :
  get d "expected_holes" = None ->
  Scores.extract_scores env (VDict d) c = (Py.Ok view, c') ->
  get (http_body view) "success" = Some (VBool true) ->
  get (http_body view) "expected_holes" = Some (VInt 18) /\
  exists l, get (http_body view) "scores" = Some (VInts l) /\
            (List.length l <= 18)%nat.
Proof.
  intros D H Hs.
  destruct (extract_scores_success_inv env (VDict d) c H Hs)
    as [ds [holes [report [t [G [X ->]]]]]].
  cbn [Scores.get_expected_holes] in G. rewrite D in G. injection G as <-.
  destruct (extract_inv ds (VInt 18) X) as [taken [_ [T [Es [_ [_ [_ Ee]]]]]]].
  split; [cbn; now rewrite Ee|].
  exists (Scores.scores report). split; [reflexivity|].
  rewrite Es, length_map.
  apply (@slice_to_length _ _ _ 18%Z) in T; [exact T | discriminate].
Qed.

Lemma default_expected_holes_witness :
  exists view c',
    Scores.extract_scores (fixed_env [raw_four]) image_request 0%nat
    = (Py.Ok view, c') /\
    get (http_body view) "expected_holes" = Some (VInt 18) /\
    exists l, get (http_body view) "scores" = Some (VInts l) /\
              (List.length l <= 18)%nat.
Proof.
  eexists. eexists. split; [reflexivity|].
  apply (@default_expected_holes unit (fixed_env [raw_four])
           [("image", VStr (Py.lit "aGVsbG8="))] 0%nat 4%nat);
    reflexivity.
Defined.

(** Every [/ocr] response carries the time between the two readings of the
    clock. *)
Lemma ocr_processing_time
      (image : Type) (env : Env image) (request : request_json) (c : clock) :
  (exists view,
      Enhanced.perform_ocr env request c = (Py.Ok view, S (S c)) /\
      get (http_body view) "processing_time"
      = Some (VFloat (wall env (S c) - wall env c))) /\
  (exists view,
      Scores.perform_ocr env request c = (Py.Ok view, S (S c)) /\
      get (http_body view) "processing_time"
      = Some (VFloat (wall env (S c) - wall env c))).
Proof.
  run_handlers. split.
  - destruct (lacks request "image") as [[|]|e];
      try (eexists; split; reflexivity).
    destruct (item request "image") as [v|e];
      try (eexists; split; reflexivity).
    destruct (load_image env v) as [i|e];
      try (eexists; split; reflexivity).
    destruct (Enhanced.preprocess_image env i) as [p|e];
      try (eexists; split; reflexivity).
    destruct (readtext env p) as [r|e]; eexists; split; reflexivity.
  - destruct (lacks request "image") as [[|]|e];
      try (eexists; split; reflexivity).
    destruct (item request "image") as [v|e];
      try (eexists; split; reflexivity).
    destruct (load_image env v) as [i|e];
      try (eexists; split; reflexivity).
    destruct (readtext env i) as [r|e]; eexists; split; reflexivity.
Qed.

Lemma extract_scores_processing_time
      (image : Type) (env : Env image) (request : request_json) (c : clock) :
  exists view c' n m,
    Scores.extract_scores env request c = (Py.Ok view, c') /\
    (n <= m)%nat /\
    get (http_body view) "processing_time"
    = Some (VFloat (wall env m - wall env n)).
Proof.
  destruct (perform_ocr_answers env request (S c)) as [v [k [E J]]].
  destruct (ocr_processing_time env request (S c)) as [_ [v' [E' T]]].
  rewrite E in E'. injection E' as <- ->.
  unfold Scores.extract_scores, bind, try_except, time_time, lift, ret.
  rewrite E, J.
  destruct (Scores.failed (http_body v)).
  { exists (BareDict (http_body v)), (S (S (S c))), (S c), (S (S c)).
    split; [reflexivity|]. split; [lia | exact T]. }
  destruct (item (VDict (http_body v)) "detections") as [f|e];
    [|eexists; eexists; exists c, (S (S (S c)));
      split; [reflexivity|]; split; [lia | reflexivity]].
  destruct (Scores.get_expected_holes request) as [h|e];
    [|eexists; eexists; exists c, (S (S (S c)));
      split; [reflexivity|]; split; [lia | reflexivity]].
  destruct (Scores.iterate f) as [ds|e];
    [|eexists; eexists; exists c, (S (S (S c)));
      split; [reflexivity|]; split; [lia | reflexivity]].
  destruct (Scores.extract ds h) as [r|e];
    eexists; eexists; exists c, (S (S (S c)));
    (split; [reflexivity|]); split; try lia; reflexivity.
Qed.

Lemma elapsed_nonnegative
      (image : Type) (env : Env image) (n m : nat) :
  monotone_clock env -> (n <= m)%nat -> 0 <= wall env m - wall env n.
Proof.
  intros M H. apply (proj1 (Qle_minus_iff _ _)). now apply M.
Qed.

(** X20: provided the clock never goes backwards, the [processing_time] of
    every response of [/ocr] (both servers) and of [/extract_scores] is not
    negative. *)
Theorem processing_time_nonnegative
        (image : Type) (env : Env image) (request : request_json)
        (c : clock) :
  monotone_clock env ->
  answers_timed (Enhanced.perform_ocr env request c) /\
  answers_timed (Scores.perform_ocr env request c) /\
  answers_timed (Scores.extract_scores env request c).
Proof.
  intros M.
  destruct (ocr_processing_time env request c)
    as [[v1 [E1 T1]] [v2 [E2 T2]]].
  destruct (extract_scores_processing_time env request c)
    as [v3 [c3 [n [m [E3 [L T3]]]]]].
  unfold answers_timed, timed. repeat split.
  - exists v1, (S (S c)). split; [exact E1|]. eexists. split; [exact T1|].
    apply elapsed_nonnegative; [assumption | lia].
  - exists v2, (S (S c)). split; [exact E2|]. eexists. split; [exact T2|].
    apply elapsed_nonnegative; [assumption | lia].
  - exists v3, c3. split; [exact E3|]. eexists. split; [exact T3|].
    now apply elapsed_nonnegative.
Qed.

Lemma processing_time_nonnegative_witness :
  answers_timed (Enhanced.perform_ocr (fixed_env [raw_four]) image_request
                                      0%nat) /\
  answers_timed (Scores.perform_ocr (fixed_env [raw_four]) image_request
                                    0%nat) /\
  answers_timed (Scores.extract_scores (fixed_env [raw_four]) image_request
                                       0%nat).
Proof.
  apply (@processing_time_nonnegative unit (fixed_env [raw_four])
           image_request 0%nat).
  intros n m H. cbn [wall fixed_env]. rewrite <- Zle_Qle. lia.
Defined.

(** X21: a successful [/ocr] of the enhanced server lists the reader's
    results cleaned and ranked, one detection per result, and its message
    gives their number. *)
Theorem enhanced_ocr_success
        (image : Type) (env : Env image) (request : request_json)
        (c : clock) (img : image) (results : list RawDetection) :
  lacks request "image" = Py.Ok false ->
  loaded env request = Py.Ok img ->
  recognized env img = Py.Ok results ->
  exists body,
    fst (Enhanced.perform_ocr env request c) = Py.Ok (Response body) /\
    get body "success" = Some (VBool true) /\
    get body "detections"
    = Some (VDetections (Enhanced.extract_text_with_confidence results)) /\
    List.length (Enhanced.extract_text_with_confidence results)
    = List.length results /\
    get body "message"
    = Some (VStr (Py.lit "Successfully processed "
                  ++ Py.str_of_nat (List.length results)
                  ++ Py.lit " text detections")).
Proof.
  intros L H R. unfold loaded in H.
  destruct (item request "image") as [v|e] eqn:I; [|discriminate].
  cbn [rbind] in H.
  assert (N : List.length (Enhanced.extract_text_with_confidence results)
              = List.length results).
  { unfold Enhanced.extract_text_with_confidence.
    rewrite (Permutation_length (sort_perm _ _ _ _)). apply length_map. }
  run_handlers. rewrite L, I, H.
  unfold recognized in R.
  destruct (Enhanced.preprocess_image env img) as [p|e]; [|discriminate].
  cbn [rbind] in R. rewrite R. eexists. split; [reflexivity|].
  split; [reflexivity|]. split; [reflexivity|]. split; [exact N|].
  rewrite <- N. reflexivity.
Qed.

Lemma enhanced_ocr_success_witness :
  exists body,
    fst (Enhanced.perform_ocr (fixed_env [raw_four; raw_superscript_two])
                              image_request 0%nat)
    = Py.Ok (Response body) /\
    get body "success" = Some (VBool true) /\
    get body "detections"
    = Some (VDetections (Enhanced.extract_text_with_confidence
                           [raw_four; raw_superscript_two])) /\
    List.length (Enhanced.extract_text_with_confidence
                   [raw_four; raw_superscript_two])
    = List.length [raw_four; raw_superscript_two] /\
    get body "message"
    = Some (VStr (Py.lit "Successfully processed "
                  ++ Py.str_of_nat
                       (List.length [raw_four; raw_superscript_two])
                  ++ Py.lit " text detections")).
Proof.
  apply (@enhanced_ocr_success unit
           (fixed_env [raw_four; raw_superscript_two]) image_request 0%nat tt
           [raw_four; raw_superscript_two]);
    reflexivity.
Defined.

Lemma scores_ocr_keeps_reader_order_witness :
  exists body,
    fst (Scores.perform_ocr (fixed_env [raw_four; raw_superscript_two])
                            image_request 0%nat)
    = Py.Ok (Response body) /\
    get body "detections"
    = Some (VDetections (map (detection_of (fun text => text))
                             [raw_four; raw_superscript_two])).
Proof.
  apply (@scores_ocr_keeps_reader_order unit
           (fixed_env [raw_four; raw_superscript_two]) image_request 0%nat
           (VStr (Py.lit "aGVsbG8=")) tt [raw_four; raw_superscript_two]);
    reflexivity.
Defined.

Lemma lacks_only_without_image (request : request_json) :
  lacks request "image" = Py.Ok true -> without_image request.
Proof.
  destruct request as [| b | z | q | s | l | l | l | d];
    unfold lacks; cbn [without_image truthy].
  - trivial.
  - destruct b; [discriminate | reflexivity].
  - destruct (Z.eqb_spec z 0); [trivial | discriminate].
  - destruct (Qeq_bool q 0) eqn:E; [|discriminate].
    intros _. now apply Qeq_bool_iff.
  - destruct s as [|a s]; [reflexivity|]. cbn [negb].
    intros H. injection H as H. now apply negb_true_iff.
  - trivial.
  - trivial.
  - destruct l as [|a l]; [reflexivity|]. cbn [negb].
    intros H. injection H as H. now apply negb_true_iff.
  - destruct d as [|a d]; [reflexivity|]. cbn [negb].
    intros H. injection H as H. apply negb_true_iff in H.
    unfold has_key in H. now destruct (get (a :: d) "image").
Qed.

Lemma other_status (body : dict) (status : Z) :
  status <> 400%Z ->
  ~ missing_image_response (Py.Ok (WithStatus body status)).
Proof.
  intros N [view [E [H _]]]. injection E as <-. now apply N.
Qed.

Lemma success_not_missing (body : dict) :
  ~ missing_image_response (Py.Ok (Response body)).
Proof. intros [view [E [H _]]]. injection E as <-. discriminate. Qed.

(** X24: the answer 400 "Missing image data in request" is given to no
    other body: whenever [/ocr] of either server gives it, the body is null,
    false, zero, an object with no ["image"] key, an array with no element
    ["image"] or a string that does not contain ["image"]. *)
Theorem missing_image_only_without_image
        (image : Type) (env : Env image)
        (request : request_json) (c : clock) :
  (missing_image_response (fst (Enhanced.perform_ocr env request c)) ->
   without_image request) /\
  (missing_image_response (fst (Scores.perform_ocr env request c)) ->
   without_image request).
Proof.
  pose proof (lacks_only_without_image request) as W.
  run_handlers. split.
  - destruct (lacks request "image") as [[|]|e]; [now intros _; apply W | |].
    + destruct (item request "image") as [v|e].
      * destruct (load_image env v) as [i|e].
        -- destruct (Enhanced.preprocess_image env i) as [p|e];
             [|intros H; now apply other_status in H].
           destruct (readtext env p) as [r|e];
             [intros H; now apply success_not_missing in H
             |intros H; now apply other_status in H].
        -- intros [view [E [_ [_ [H _]]]]]. injection E as <-.
           cbn in H. discriminate.
      * intros [view [E [_ [_ [H _]]]]]. injection E as <-.
        cbn in H. discriminate.
    + intros H. now apply other_status in H.
  - destruct (lacks request "image") as [[|]|e]; [now intros _; apply W | |].
    + destruct (item request "image") as [v|e];
        [|intros H; now apply other_status in H].
      destruct (load_image env v) as [i|e];
        [|intros H; now apply other_status in H].
      destruct (readtext env i) as [r|e];
        [intros H; now apply success_not_missing in H
        |intros H; now apply other_status in H].
    + intros H. now apply other_status in H.
Qed.
